(** * azqr: rule catalogs and resource-group scanners

    A shallow embedding of the Go sources

    - package [sigr]   ([SignalRScanner.GetRules]),
    - package [cosmos] ([CosmosDBScanner.GetRules]),
    - packages [cog], [redis], [mysql] and [dec] (the [Scan] method of four
      scanners and their paginated listers),

    together with proofs about rule evaluation and about [Scan].

    Conventions of the embedding.

    - A Go pointer [*T] is [ptr T] = [option T]; [None] is [nil].
    - A Go call either returns or panics; the two panics the sources can raise
      are a failed type assertion and a nil dereference.
    - The object behind the [*scanners.ScanContext] argument is mutable Go
      memory.  Code that receives the pointer is a state transformer over the
      pointee ([GoM]), so that "does not modify the context" is a statement
      about the code and not about the type of the model.
    - [strings.ToLower] belongs to the Go standard library; it is a parameter
      of the development (class [strings.CaseMapping]). *)

From stdpp Require Import base option list strings gmap fin_maps sorting.

Set Default Proof Using "Type".
Local Open Scope string_scope.

(** ** Go values and control *)

Abbreviation ptr A := (option A) (only parsing).

Inductive panic : Set :=
| TypeAssertionFailed   (* x.(T) on a value whose dynamic type is not T *)
| NilDereference.       (* *p or p.f on a nil pointer *)

Inductive Go (A : Type) : Type :=
| Returned (a : A)
| Panicked (p : panic).
Arguments Returned {A} a.
Arguments Panicked {A} p.

(** A Go computation running against a mutable object of type [S]; the object
    survives a panic. *)
Definition GoM (S A : Type) : Type := S → Go A * S.

#[export] Instance GoM_ret {S} : MRet (GoM S) := λ A a s, (Returned a, s).
#[export] Instance GoM_bind {S} : MBind (GoM S) := λ A B f m s,
  match m s with
  | (Returned a, s') => f a s'
  | (Panicked p, s') => (Panicked p, s')
  end.

Definition raise {S A} (p : panic) : GoM S A := λ s, (Panicked p, s).
Definition load {S} : GoM S S := λ s, (Returned s, s).
Definition store {S} (s' : S) : GoM S unit := λ _, (Returned tt, s').

(** [*p] *)
Definition deref {S A} (p : ptr A) : GoM S A :=
  match p with
  | Some a => mret a
  | None => raise NilDereference
  end.

(** A computation is read-only when no run of it changes the object. *)
Definition read_only {S A} (m : GoM S A) : Prop := ∀ s, (m s).2 = s.

(** ** Package [strings] *)

Module strings.

(** [strings.ToLower], from the Go standard library. *)
Class CaseMapping := { ToLower : string → string }.

(** [strings.HasPrefix(s, prefix)] *)
Definition HasPrefix (s prefix : string) : bool := String.prefix prefix s.

(** [strings.Contains(s, substr)] *)
Fixpoint Contains (s substr : string) : bool :=
  String.prefix substr s ||
  match s with
  | EmptyString => false
  | String _ s' => Contains s' substr
  end.

(** The lower-casing of the bytes ['A'..'Z'], which is what [strings.ToLower]
    does on ASCII text; used to run the development on concrete
    identifiers. *)
Definition lower_byte (c : Ascii.ascii) : Ascii.ascii :=
  let n := Ascii.nat_of_ascii c in
  if (65 <=? n)%nat && (n <=? 90)%nat then Ascii.ascii_of_nat (n + 32) else c.

Fixpoint lower_ascii (s : string) : string :=
  match s with
  | EmptyString => EmptyString
  | String c s' => String (lower_byte c) (lower_ascii s')
  end.

Definition ascii_case : CaseMapping := {| ToLower := lower_ascii |}.

End strings.

(** ** The Azure SDK resource types (the fields the sources read) *)

Module armsignalr.
Record ResourceSKU := { ResourceSKU_Name : ptr string }.
Record PrivateEndpointConnection := { PrivateEndpointConnection_ID : ptr string }.
Record Properties :=
  { PrivateEndpointConnections : list (ptr PrivateEndpointConnection) }.
Record ResourceInfo :=
  { ID : ptr string;
    Name : ptr string;
    Type_ : ptr string;
    Location : ptr string;
    SKU : ptr ResourceSKU;
    Properties_ : ptr Properties;
    Tags : gmap string (ptr string) }.
End armsignalr.

Module armcosmos.
Record Location := { IsZoneRedundant : ptr bool }.
Record PrivateEndpointConnection := { PrivateEndpointConnection_ID : ptr string }.
Record DatabaseAccountGetProperties :=
  { Locations : list (ptr Location);
    PrivateEndpointConnections : list (ptr PrivateEndpointConnection);
    DatabaseAccountOfferType : ptr string;
    DisableLocalAuth : ptr bool;
    DisableKeyBasedMetadataWriteAccess : ptr bool }.
Record DatabaseAccountGetResults :=
  { ID : ptr string;
    Name : ptr string;
    Type_ : ptr string;
    Location_ : ptr string;
    Properties : ptr DatabaseAccountGetProperties;
    Tags : gmap string (ptr string) }.
End armcosmos.

Module armcognitiveservices.
Record Account :=
  { ID : ptr string; Name : ptr string; Type_ : ptr string; Location : ptr string;
    Tags : gmap string (ptr string) }.
End armcognitiveservices.

Module armredis.
Record ResourceInfo :=
  { ID : ptr string; Name : ptr string; Type_ : ptr string; Location : ptr string;
    Tags : gmap string (ptr string) }.
End armredis.

Module armmysqlflexibleservers.
Record Server :=
  { ID : ptr string; Name : ptr string; Type_ : ptr string; Location : ptr string;
    Tags : gmap string (ptr string) }.
End armmysqlflexibleservers.

Module armkusto.
Record Cluster :=
  { ID : ptr string; Name : ptr string; Type_ : ptr string; Location : ptr string;
    Tags : gmap string (ptr string) }.
End armkusto.

(** ** [interface{}]

    A value of the empty interface is its dynamic type together with the value
    of that type.  The dynamic types that occur are the pointers to the SDK
    resources above; [nil_interface] is the nil interface value and
    [other_type] stands for a value of any other dynamic type. *)
Inductive any : Type :=
| nil_interface
| signalr_ResourceInfo (p : ptr armsignalr.ResourceInfo)
| cosmos_DatabaseAccountGetResults (p : ptr armcosmos.DatabaseAccountGetResults)
| cognitiveservices_Account (p : ptr armcognitiveservices.Account)
| redis_ResourceInfo (p : ptr armredis.ResourceInfo)
| mysqlflexibleservers_Server (p : ptr armmysqlflexibleservers.Server)
| kusto_Cluster (p : ptr armkusto.Cluster)
| other_type (type_name : string).

(** The type assertion of [target] to a pointer to [armsignalr.ResourceInfo]. *)
Definition assert_signalr {S} (target : any) : GoM S (ptr armsignalr.ResourceInfo) :=
  match target with
  | signalr_ResourceInfo p => mret p
  | _ => raise TypeAssertionFailed
  end.

(** The type assertion of [target] to a pointer to
    [armcosmos.DatabaseAccountGetResults]. *)
Definition assert_cosmos {S} (target : any)
  : GoM S (ptr armcosmos.DatabaseAccountGetResults) :=
  match target with
  | cosmos_DatabaseAccountGetResults p => mret p
  | _ => raise TypeAssertionFailed
  end.

Definition is_signalr (target : any) : bool :=
  match target with signalr_ResourceInfo _ => true | _ => false end.

Definition is_cosmos (target : any) : bool :=
  match target with cosmos_DatabaseAccountGetResults _ => true | _ => false end.

(** ** Package [scanners] *)

Module scanners.

(** Modelled from the spec: the declaration of [ScanContext] is not among the
    sources.  It holds a mapping from lower-cased resource identifier to the
    boolean "has diagnostics configured", which the rules read as
    [scanContext.DiagnosticsSettings]. *)
Record ScanContext := { DiagnosticsSettings : gmap string bool }.

(** What a [*ScanContext] designates: a context object, or nothing for the nil
    pointer. *)
Abbreviation Heap := (ptr ScanContext) (only parsing).

(** The comma-ok map read [v, ok := scanContext.DiagnosticsSettings[key]];
    reading a nil map finds nothing, like reading [∅]. *)
Definition DiagnosticsSettings_lookup (key : string) : GoM Heap (bool * bool) :=
  scanContext ← load;
  ctx ← deref scanContext;
  mret (default false (DiagnosticsSettings ctx !! key),
        bool_decide (is_Some (DiagnosticsSettings ctx !! key))).

Inductive RulesCategory : Set :=
| RulesCategoryHighAvailability
| RulesCategorySecurity
| RulesCategoryGovernance
| RulesCategoryMonitoringAndAlerting.

Inductive ImpactType : Set := ImpactLow | ImpactMedium | ImpactHigh.

(** The outcome of one rule on one resource: (triggered, detail). *)
Abbreviation Outcome := (bool * string)%type (only parsing).

(** Modelled from the spec: the declaration of [AzureRule] is not among the
    sources; its fields are those of the composite literals in [GetRules]. *)
Record AzureRule :=
  { Id : string;
    Category : RulesCategory;
    Recommendation : string;
    Impact : ImpactType;
    Eval : any → GoM Heap Outcome;
    Url : string }.

Record ScannerConfig :=
  { SubscriptionID : string;
    SubscriptionName : string }.

(** Modelled from the spec: the declaration of [AzureServiceResult] is not
    among the sources; the fields are those the [Scan] methods fill in, with
    [Rules] the per-rule outcomes keyed by rule id. *)
Record AzureServiceResult :=
  { Result_SubscriptionID : string;
    Result_SubscriptionName : string;
    ResourceGroup : string;
    ServiceName : string;
    Type_ : string;
    Location : string;
    Rules : gmap string Outcome }.

(** The order in which the engine visits a catalog: by rule id. *)
Definition by_id (x y : string * AzureRule) : Prop := String.leb x.1 y.1.

#[export] Instance by_id_dec x y : Decision (by_id x y).
Proof. unfold by_id. apply _. Defined.

Definition in_order (rules : gmap string AzureRule) : list (string * AzureRule) :=
  merge_sort by_id (map_to_list rules).

Fixpoint evaluate_each (todo : list (string * AzureRule)) (target : any)
    (results : gmap string Outcome) : GoM Heap (gmap string Outcome) :=
  match todo with
  | [] => mret results
  | (k, rule) :: todo' =>
      outcome ← Eval rule target;
      evaluate_each todo' target (<[k := outcome]> results)
  end.

(** Modelled from the spec: [RuleEngine.EvaluateRules] is not among the
    sources.  Section 4.1: every rule of the catalog is evaluated exactly
    once, in the order of the rule ids, and the outcomes are returned as a
    mapping from rule id to (triggered, detail); the empty catalog gives the
    empty mapping.  An evaluation that panics ends the call. *)
Definition EvaluateRules (rules : gmap string AzureRule) (target : any)
  : GoM Heap (gmap string Outcome) :=
  evaluate_each (in_order rules) target ∅.

(** A catalog whose evaluators never write to the scan context. *)
Definition catalog_read_only (rules : gmap string AzureRule) : Prop :=
  ∀ k rule target, rules !! k = Some rule → read_only (Eval rule target).

End scanners.

(** ** Package [sigr]: the SignalR rules *)

Module sigr.
Import scanners.

Section rules.
Context `{strings.CaseMapping}.

Definition Eval_sigr_001 (target : any) : GoM Heap Outcome :=
  service ← assert_signalr target;
  service' ← deref service;
  id ← deref (armsignalr.ID service');
  '(_, ok) ← DiagnosticsSettings_lookup (strings.ToLower id);
  mret (negb ok, "").

Definition Eval_sigr_002 (target : any) : GoM Heap Outcome :=
  i ← assert_signalr target;
  i' ← deref i;
  SKU ← deref (armsignalr.SKU i');
  sku ← deref (armsignalr.ResourceSKU_Name SKU);
  let zones := if strings.Contains sku "Premium" then true else false in
  mret (negb zones, "").

Definition Eval_sigr_003 (target : any) : GoM Heap Outcome :=
  mret (false, "99.9%").

Definition Eval_sigr_004 (target : any) : GoM Heap Outcome :=
  i ← assert_signalr target;
  i' ← deref i;
  Properties ← deref (armsignalr.Properties_ i');
  let pe := bool_decide (0 < length (armsignalr.PrivateEndpointConnections Properties)) in
  mret (negb pe, "").

Definition Eval_sigr_005 (target : any) : GoM Heap Outcome :=
  i ← assert_signalr target;
  i' ← deref i;
  SKU ← deref (armsignalr.SKU i');
  sku ← deref (armsignalr.ResourceSKU_Name SKU);
  mret (false, sku).

Definition Eval_sigr_006 (target : any) : GoM Heap Outcome :=
  c ← assert_signalr target;
  c' ← deref c;
  Name ← deref (armsignalr.Name c');
  let caf := strings.HasPrefix Name "sigr" in
  mret (negb caf, "").

Definition Eval_sigr_007 (target : any) : GoM Heap Outcome :=
  c ← assert_signalr target;
  c' ← deref c;
  mret (bool_decide (size (armsignalr.Tags c') = 0), "").

(** The composite literal of [GetRules], entry by entry. *)
Definition GetRules_literal : list (string * AzureRule) :=
  [ ("sigr-001",
      {| Id := "sigr-001";
         Category := RulesCategoryMonitoringAndAlerting;
         Recommendation := "SignalR should have diagnostic settings enabled";
         Impact := ImpactLow;
         Eval := Eval_sigr_001;
         Url := "https://learn.microsoft.com/en-us/azure/azure-signalr/signalr-howto-diagnostic-logs" |});
    ("sigr-002",
      {| Id := "sigr-002";
         Category := RulesCategoryHighAvailability;
         Recommendation := "SignalR should have availability zones enabled";
         Impact := ImpactHigh;
         Eval := Eval_sigr_002;
         Url := "https://learn.microsoft.com/en-us/azure/azure-signalr/availability-zones" |});
    ("sigr-003",
      {| Id := "sigr-003";
         Category := RulesCategoryHighAvailability;
         Recommendation := "SignalR should have a SLA";
         Impact := ImpactHigh;
         Eval := Eval_sigr_003;
         Url := "https://www.azure.cn/en-us/support/sla/signalr-service/" |});
    ("sigr-004",
      {| Id := "sigr-004";
         Category := RulesCategorySecurity;
         Recommendation := "SignalR should have private endpoints enabled";
         Impact := ImpactHigh;
         Eval := Eval_sigr_004;
         Url := "https://learn.microsoft.com/en-us/azure/azure-signalr/howto-private-endpoints" |});
    ("sigr-005",
      {| Id := "sigr-005";
         Category := RulesCategoryHighAvailability;
         Recommendation := "SignalR SKU";
         Impact := ImpactHigh;
         Eval := Eval_sigr_005;
         Url := "https://azure.microsoft.com/en-us/pricing/details/signalr-service/" |});
    ("sigr-006",
      {| Id := "sigr-006";
         Category := RulesCategoryGovernance;
         Recommendation := "SignalR Name should comply with naming conventions";
         Impact := ImpactLow;
         Eval := Eval_sigr_006;
         Url := "https://learn.microsoft.com/en-us/azure/cloud-adoption-framework/ready/azure-best-practices/resource-abbreviations" |});
    ("sigr-007",
      {| Id := "sigr-007";
         Category := RulesCategoryGovernance;
         Recommendation := "SignalR should have tags";
         Impact := ImpactLow;
         Eval := Eval_sigr_007;
         Url := "https://learn.microsoft.com/en-us/azure/azure-resource-manager/management/tag-resources?tabs=json" |}) ].

(** [GetRules - Returns the rules for the SignalRScanner] *)
Definition GetRules : gmap string AzureRule := list_to_map GetRules_literal.

End rules.
End sigr.

(** ** Package [cosmos]: the CosmosDB rules *)

Module cosmos.
Import scanners.

Section rules.
Context `{strings.CaseMapping}.

Definition Eval_cosmos_001 (target : any) : GoM Heap Outcome :=
  service ← assert_cosmos target;
  service' ← deref service;
  id ← deref (armcosmos.ID service');
  '(_, ok) ← DiagnosticsSettings_lookup (strings.ToLower id);
  mret (negb ok, "").

(** The [for _, location := range i.Properties.Locations] loop of
    cosmos-002, over the remaining locations and the three local variables.
    [numberOfLocations] counts the elements of a slice and so stays below
    the range of [int]. *)
Fixpoint range_Locations_002 (locations : list (ptr armcosmos.Location))
    (availabilityZones availabilityZonesNotEnabledInALocation : bool)
    (numberOfLocations : nat) : GoM Heap (bool * bool * nat) :=
  match locations with
  | [] =>
      mret (availabilityZones, availabilityZonesNotEnabledInALocation,
            numberOfLocations)
  | location :: locations' =>
      let numberOfLocations := S numberOfLocations in
      location' ← deref location;
      zoneRedundant ← deref (armcosmos.IsZoneRedundant location');
      if zoneRedundant : bool
      then range_Locations_002 locations' true
             availabilityZonesNotEnabledInALocation numberOfLocations
      else range_Locations_002 locations' availabilityZones
             true numberOfLocations
  end.

Definition Eval_cosmos_002 (target : any) : GoM Heap Outcome :=
  i ← assert_cosmos target;
  i' ← deref i;
  Properties ← deref (armcosmos.Properties i');
  '(availabilityZones, availabilityZonesNotEnabledInALocation, numberOfLocations) ←
    range_Locations_002 (armcosmos.Locations Properties) false false 0;
  let zones :=
    availabilityZones && bool_decide (2 ≤ numberOfLocations)%nat
      && negb availabilityZonesNotEnabledInALocation in
  mret (negb zones, "").

(** The loop of cosmos-003; it also assigns [sla]. *)
Fixpoint range_Locations_003 (locations : list (ptr armcosmos.Location))
    (sla : string)
    (availabilityZones availabilityZonesNotEnabledInALocation : bool)
    (numberOfLocations : nat) : GoM Heap (string * bool * bool * nat) :=
  match locations with
  | [] =>
      mret (sla, availabilityZones, availabilityZonesNotEnabledInALocation,
            numberOfLocations)
  | location :: locations' =>
      let numberOfLocations := S numberOfLocations in
      location' ← deref location;
      zoneRedundant ← deref (armcosmos.IsZoneRedundant location');
      if zoneRedundant : bool
      then range_Locations_003 locations' "99.995%" true
             availabilityZonesNotEnabledInALocation numberOfLocations
      else range_Locations_003 locations' sla availabilityZones
             true numberOfLocations
  end.

Definition Eval_cosmos_003 (target : any) : GoM Heap Outcome :=
  i ← assert_cosmos target;
  i' ← deref i;
  Properties ← deref (armcosmos.Properties i');
  '(sla, availabilityZones, availabilityZonesNotEnabledInALocation, numberOfLocations) ←
    range_Locations_003 (armcosmos.Locations Properties) "99.99%" false false 0;
  let sla :=
    if availabilityZones && bool_decide (2 ≤ numberOfLocations)%nat
         && negb availabilityZonesNotEnabledInALocation
    then "99.999%" else sla in
  mret (false, sla).

Definition Eval_cosmos_004 (target : any) : GoM Heap Outcome :=
  i ← assert_cosmos target;
  i' ← deref i;
  Properties ← deref (armcosmos.Properties i');
  let pe := bool_decide (0 < length (armcosmos.PrivateEndpointConnections Properties)) in
  mret (negb pe, "").

Definition Eval_cosmos_005 (target : any) : GoM Heap Outcome :=
  i ← assert_cosmos target;
  i' ← deref i;
  Properties ← deref (armcosmos.Properties i');
  offerType ← deref (armcosmos.DatabaseAccountOfferType Properties);
  mret (false, offerType).

Definition Eval_cosmos_006 (target : any) : GoM Heap Outcome :=
  c ← assert_cosmos target;
  c' ← deref c;
  Name ← deref (armcosmos.Name c');
  let caf := strings.HasPrefix Name "cosmos" in
  mret (negb caf, "").

Definition Eval_cosmos_007 (target : any) : GoM Heap Outcome :=
  c ← assert_cosmos target;
  c' ← deref c;
  mret (bool_decide (size (armcosmos.Tags c') = 0), "").

(** [p != nil && *p] *)
Definition set_and_true (p : ptr bool) : bool :=
  match p with
  | Some b => b
  | None => false
  end.

Definition Eval_cosmos_008 (target : any) : GoM Heap Outcome :=
  c ← assert_cosmos target;
  c' ← deref c;
  Properties ← deref (armcosmos.Properties c');
  let localAuth := set_and_true (armcosmos.DisableLocalAuth Properties) in
  mret (negb localAuth, "").

Definition Eval_cosmos_009 (target : any) : GoM Heap Outcome :=
  c ← assert_cosmos target;
  c' ← deref c;
  Properties ← deref (armcosmos.Properties c');
  let disabled :=
    set_and_true (armcosmos.DisableKeyBasedMetadataWriteAccess Properties) in
  mret (negb disabled, "").

(** The composite literal of [GetRules], entry by entry. *)
Definition GetRules_literal : list (string * AzureRule) :=
  [ ("cosmos-001",
      {| Id := "cosmos-001";
         Category := RulesCategoryMonitoringAndAlerting;
         Recommendation := "CosmosDB should have diagnostic settings enabled";
         Impact := ImpactLow;
         Eval := Eval_cosmos_001;
         Url := "https://learn.microsoft.com/en-us/azure/cosmos-db/monitor-resource-logs" |});
    ("cosmos-002",
      {| Id := "cosmos-002";
         Category := RulesCategoryHighAvailability;
         Recommendation := "CosmosDB should have availability zones enabled";
         Impact := ImpactHigh;
         Eval := Eval_cosmos_002;
         Url := "https://learn.microsoft.com/en-us/azure/cosmos-db/high-availability" |});
    ("cosmos-003",
      {| Id := "cosmos-003";
         Category := RulesCategoryHighAvailability;
         Recommendation := "CosmosDB should have a SLA";
         Impact := ImpactHigh;
         Eval := Eval_cosmos_003;
         Url := "https://learn.microsoft.com/en-us/azure/cosmos-db/high-availability#slas" |});
    ("cosmos-004",
      {| Id := "cosmos-004";
         Category := RulesCategorySecurity;
         Recommendation := "CosmosDB should have private endpoints enabled";
         Impact := ImpactHigh;
         Eval := Eval_cosmos_004;
         Url := "https://learn.microsoft.com/en-us/azure/cosmos-db/how-to-configure-private-endpoints" |});
    ("cosmos-005",
      {| Id := "cosmos-005";
         Category := RulesCategoryHighAvailability;
         Recommendation := "CosmosDB SKU";
         Impact := ImpactHigh;
         Eval := Eval_cosmos_005;
         Url := "https://azure.microsoft.com/en-us/pricing/details/cosmos-db/autoscale-provisioned/" |});
    ("cosmos-006",
      {| Id := "cosmos-006";
         Category := RulesCategoryGovernance;
         Recommendation := "CosmosDB Name should comply with naming conventions";
         Impact := ImpactLow;
         Eval := Eval_cosmos_006;
         Url := "https://learn.microsoft.com/en-us/azure/cloud-adoption-framework/ready/azure-best-practices/resource-abbreviations" |});
    ("cosmos-007",
      {| Id := "cosmos-007";
         Category := RulesCategoryGovernance;
         Recommendation := "CosmosDB should have tags";
         Impact := ImpactLow;
         Eval := Eval_cosmos_007;
         Url := "https://learn.microsoft.com/en-us/azure/azure-resource-manager/management/tag-resources?tabs=json" |});
    ("cosmos-008",
      {| Id := "cosmos-008";
         Category := RulesCategorySecurity;
         Recommendation := "CosmosDB should have local authentication disabled";
         Impact := ImpactHigh;
         Eval := Eval_cosmos_008;
         Url := "https://learn.microsoft.com/en-us/azure/cosmos-db/how-to-setup-rbac#disable-local-auth" |});
    ("cosmos-009",
      {| Id := "cosmos-009";
         Category := RulesCategorySecurity;
         Recommendation := "CosmosDB: disable write operations on metadata resources (databases, containers, throughput) via account keys";
         Impact := ImpactHigh;
         Eval := Eval_cosmos_009;
         Url := "https://learn.microsoft.com/en-us/azure/cosmos-db/role-based-access-control#set-via-arm-template" |}) ].

(** [GetRules - Returns the rules for the CosmosDBScanner] *)
Definition GetRules : gmap string AzureRule := list_to_map GetRules_literal.

End rules.
End cosmos.

(** ** The scanners

    [CognitiveScanner], [RedisScanner], [MySQLFlexibleScanner] and
    [DataExplorerScanner] have the same [Scan] method and the same lister, up to
    the SDK resource type and the names of local variables.  The method is
    written once, over the resource type, and instantiated four times below. *)

(** A Go [error] value, with the text of its [Error()] method. *)
Record error := { Error : string }.

(** What the Azure pager of one listing delivers: the responses of the
    successive [NextPage] calls.  [More()] holds as long as a response is
    left. *)
Inductive page (Item : Type) : Type :=
| page_ok (Value : list (ptr Item))
| page_error (err : error).
Arguments page_ok {Item} Value.
Arguments page_error {Item} err.

Definition Pager (Item : Type) : Type := list (page Item).

(** The part of an SDK resource that [Scan] reads, and its conversion to
    [interface{}] when it is handed to the rule engine. *)
Class Resource (Item : Type) :=
  { get_Name : Item → ptr string;
    get_Type : Item → ptr string;
    get_Location : Item → ptr string;
    as_target : ptr Item → any }.

#[export] Instance cognitive_resource : Resource armcognitiveservices.Account :=
  {| get_Name := armcognitiveservices.Name; get_Type := armcognitiveservices.Type_;
     get_Location := armcognitiveservices.Location; as_target := cognitiveservices_Account |}.
#[export] Instance redis_resource : Resource armredis.ResourceInfo :=
  {| get_Name := armredis.Name; get_Type := armredis.Type_;
     get_Location := armredis.Location; as_target := redis_ResourceInfo |}.
#[export] Instance mysql_resource : Resource armmysqlflexibleservers.Server :=
  {| get_Name := armmysqlflexibleservers.Name; get_Type := armmysqlflexibleservers.Type_;
     get_Location := armmysqlflexibleservers.Location; as_target := mysqlflexibleservers_Server |}.
#[export] Instance kusto_resource : Resource armkusto.Cluster :=
  {| get_Name := armkusto.Name; get_Type := armkusto.Type_;
     get_Location := armkusto.Location; as_target := kusto_Cluster |}.
#[export] Instance signalr_resource : Resource armsignalr.ResourceInfo :=
  {| get_Name := armsignalr.Name; get_Type := armsignalr.Type_;
     get_Location := armsignalr.Location; as_target := signalr_ResourceInfo |}.
#[export] Instance cosmos_resource : Resource armcosmos.DatabaseAccountGetResults :=
  {| get_Name := armcosmos.Name; get_Type := armcosmos.Type_;
     get_Location := armcosmos.Location_; as_target := cosmos_DatabaseAccountGetResults |}.

(** A scanner after [Init]: its configuration, and its client, which opens a
    pager on a resource group ([NewListByResourceGroupPager]). *)
Record Scanner (Item : Type) :=
  { config : scanners.ScannerConfig;
    client : string → Pager Item }.
Arguments config {Item} _.
Arguments client {Item} _ _.

Section variant.
Import scanners.
Context {Item : Type} `{!Resource Item}.

(** The catalog of the variant, [GetRules()]. *)
Variable GetRules : gmap string AzureRule.

(** The [for pager.More()] loop of the listers, over the responses still to
    come and the slice accumulated so far. *)
Fixpoint next_pages (pager : Pager Item) (items : list (ptr Item))
  : list (ptr Item) * ptr error :=
  match pager with
  | [] => (items, None)
  | page_error err :: _ => ([], Some err)
  | page_ok Value :: pager' => next_pages pager' (items ++ Value)
  end.

(** [listEventHubs], [listRedis], [listFlexiblePostgre], [listClusters] *)
Definition list_items (a : Scanner Item) (resourceGroupName : string)
  : list (ptr Item) * ptr error :=
  let pager := client a resourceGroupName in
  next_pages pager [].

(** The [for _, g := range items] loop of [Scan].  The three dereferences of
    the composite literal are written in the order of [cog.go]; [dec.go] has
    them in the opposite order, which raises the same panic. *)
Fixpoint range_items (a : Scanner Item) (resourceGroupName : string)
    (items : list (ptr Item)) (results : list AzureServiceResult)
  : GoM Heap (list AzureServiceResult) :=
  match items with
  | [] => mret results
  | g :: items' =>
      rr ← EvaluateRules GetRules (as_target g);
      g' ← deref g;
      name ← deref (get_Name g');
      type ← deref (get_Type g');
      location ← deref (get_Location g');
      range_items a resourceGroupName items'
        (results ++
         [ {| Result_SubscriptionID := SubscriptionID (config a);
              Result_SubscriptionName := SubscriptionName (config a);
              ResourceGroup := resourceGroupName;
              ServiceName := name;
              Type_ := type;
              Location := location;
              Rules := rr |} ])
  end.

(** [Scan]; the call of [LogResourceGroupScan] writes a log line and is not
    part of the model. *)
Definition Scan (a : Scanner Item) (resourceGroupName : string)
  : GoM Heap (list AzureServiceResult * ptr error) :=
  match list_items a resourceGroupName with
  | (_, Some err) => mret ([], Some err)
  | (items, None) =>
      results ← range_items a resourceGroupName items [];
      mret (results, None)
  end.

End variant.

Module cog.
Abbreviation CognitiveScanner := (Scanner armcognitiveservices.Account) (only parsing).
Definition listEventHubs : CognitiveScanner → string → _ := list_items.
Definition Scan (GetRules : gmap string scanners.AzureRule)
  : CognitiveScanner → string → _ := Scan GetRules.
End cog.

Module redis.
Abbreviation RedisScanner := (Scanner armredis.ResourceInfo) (only parsing).
Definition listRedis : RedisScanner → string → _ := list_items.
Definition Scan (GetRules : gmap string scanners.AzureRule)
  : RedisScanner → string → _ := Scan GetRules.
End redis.

Module mysql.
Abbreviation MySQLFlexibleScanner := (Scanner armmysqlflexibleservers.Server) (only parsing).
Definition listFlexiblePostgre : MySQLFlexibleScanner → string → _ := list_items.
Definition Scan (GetRules : gmap string scanners.AzureRule)
  : MySQLFlexibleScanner → string → _ := Scan GetRules.
End mysql.

Module dec.
Abbreviation DataExplorerScanner := (Scanner armkusto.Cluster) (only parsing).
Definition listClusters : DataExplorerScanner → string → _ := list_items.
Definition Scan (GetRules : gmap string scanners.AzureRule)
  : DataExplorerScanner → string → _ := Scan GetRules.
End dec.

(** ** Vocabulary of the statements *)

(** The call returned (it did not panic). *)
Definition returned {A} (o : Go A) : bool :=
  match o with
  | Returned _ => true
  | Panicked _ => false
  end.

(** Every key of the diagnostics index is a lower-cased identifier. *)
Definition lower_keyed `{strings.CaseMapping} (ctx : scanners.ScanContext) : Prop :=
  ∀ k, k ∈ dom (scanners.DiagnosticsSettings ctx) → strings.ToLower k = k.

(** [catalog_rule rule expects]: [rule] is an entry of the SignalR or of the
    CosmosDB catalog, and [expects] recognises the dynamic type its catalog is
    written for. *)
Inductive catalog_rule `{strings.CaseMapping}
  : scanners.AzureRule → (any → bool) → Prop :=
| catalog_rule_sigr k rule :
    sigr.GetRules !! k = Some rule → catalog_rule rule is_signalr
| catalog_rule_cosmos k rule :
    cosmos.GetRules !! k = Some rule → catalog_rule rule is_cosmos.

(** A rule inspects its target when its result depends on it.  (Every entry
    does, except sigr-003, whose evaluator is the constant [(false, "99.9%")].) *)
Definition inspects_target (rule : scanners.AzureRule) : Prop :=
  ∃ target1 target2 s,
    scanners.Eval rule target1 s ≠ scanners.Eval rule target2 s.

(** A listed item that is a resource carrying its three identity fields. *)
Definition identified {Item} `{!Resource Item} (g : ptr Item) : Prop :=
  match g with
  | Some g' =>
      is_Some (get_Name g') ∧ is_Some (get_Type g') ∧ is_Some (get_Location g')
  | None => False
  end.

(** The rule engine run over the listed items, one after the other in listing
    order, each run starting from the context the previous one left: the
    per-rule outcomes of every item. *)
Fixpoint evaluate_items {Item} `{!Resource Item}
    (GetRules : gmap string scanners.AzureRule) (items : list (ptr Item))
  : GoM (ptr scanners.ScanContext) (list (gmap string (bool * string))) :=
  match items with
  | [] => mret []
  | g :: items' =>
      rr ← scanners.EvaluateRules GetRules (as_target g);
      rrs ← evaluate_items GetRules items';
      mret (rr :: rrs)
  end.

(** The zone redundancy of a location entry, when the entry is a location
    whose [IsZoneRedundant] is set. *)
Definition zone_redundancy (location : ptr armcosmos.Location) : ptr bool :=
  location' ← location; armcosmos.IsZoneRedundant location'.

(** The location entries of an account; an account without [Properties] has
    none. *)
Definition locations_of (account : armcosmos.DatabaseAccountGetResults)
  : list (ptr armcosmos.Location) :=
  match armcosmos.Properties account with
  | Some properties => armcosmos.Locations properties
  | None => []
  end.

(** ** Concrete inputs *)

Module example.

Definition hub_id : string :=
"/subscriptions/S1/resourceGroups/RG/providers/Microsoft.SignalRService/SignalR/Hub".

Definition hub (name : string) (sku : ptr string) : armsignalr.ResourceInfo :=
{| armsignalr.ID := Some hub_id;
   armsignalr.Name := Some name;
   armsignalr.Type_ := Some "Microsoft.SignalRService/SignalR";
   armsignalr.Location := Some "westeurope";
   armsignalr.SKU := Some {| armsignalr.ResourceSKU_Name := sku |};
   armsignalr.Properties_ := Some {| armsignalr.PrivateEndpointConnections := [] |};
   armsignalr.Tags := ∅ |}.

(** The index built from the same identifier, lower-cased. *)
Definition context : scanners.ScanContext :=
{| scanners.DiagnosticsSettings :=
     {[ "/subscriptions/s1/resourcegroups/rg/providers/microsoft.signalrservice/signalr/hub" := true ]} |}.

Definition account (properties : ptr armcosmos.DatabaseAccountGetProperties)
: armcosmos.DatabaseAccountGetResults :=
{| armcosmos.ID := Some hub_id;
   armcosmos.Name := Some "cosmos-db";
   armcosmos.Type_ := Some "Microsoft.DocumentDB/databaseAccounts";
   armcosmos.Location_ := Some "westeurope";
   armcosmos.Properties := properties;
   armcosmos.Tags := {[ "env" := Some "prod" ]} |}.

Definition properties (zones : list (ptr bool)) (localAuth : ptr bool)
: armcosmos.DatabaseAccountGetProperties :=
{| armcosmos.Locations := (λ z, Some {| armcosmos.IsZoneRedundant := z |}) <$> zones;
   armcosmos.PrivateEndpointConnections := [];
   armcosmos.DatabaseAccountOfferType := Some "Standard";
   armcosmos.DisableLocalAuth := localAuth;
   armcosmos.DisableKeyBasedMetadataWriteAccess := None |}.

Definition subscription : scanners.ScannerConfig :=
{| scanners.SubscriptionID := "S1"; scanners.SubscriptionName := "production" |}.

(** A SignalR scanner whose lister answers with a page of three hubs and a
  page of two. *)
Definition five_hubs : Scanner armsignalr.ResourceInfo :=
{| config := subscription;
   client := λ _,
     [ page_ok [ Some (hub "sigr-a" (Some "Premium_P1"));
                 Some (hub "sigr-b" (Some "Standard_S1"));
                 Some (hub "c" (Some "Free_F1")) ];
       page_ok [ Some (hub "sigr-d" (Some "Premium_P1"));
                 Some (hub "e" (Some "Standard_S1")) ] ] |}.

(** A lister that fails on its second page. *)
Definition throttled : Scanner armsignalr.ResourceInfo :=
{| config := subscription;
   client := λ _,
     [ page_ok [ Some (hub "sigr-a" (Some "Premium_P1")) ];
       page_error {| Error := "429 Too Many Requests" |};
       page_ok [ Some (hub "sigr-b" (Some "Standard_S1")) ] ] |}.

(** A Cognitive Services lister that answers with one account that has no
  name. *)
Definition unnamed_account : Scanner armcognitiveservices.Account :=
{| config := subscription;
   client := λ _,
     [ page_ok [ Some {| armcognitiveservices.ID := Some "/subscriptions/s1/x";
                         armcognitiveservices.Name := None;
                         armcognitiveservices.Type_ := Some "Microsoft.CognitiveServices/accounts";
                         armcognitiveservices.Location := Some "westeurope";
                         armcognitiveservices.Tags := ∅ |} ] ] |}.

End example.

(** ** Vocabulary of the further statements *)

(** A SignalR resource that carries every field some rule of the catalog
    dereferences: [ID], [Name], [SKU] with its [Name], and [Properties]. *)
Definition signalr_complete (service : armsignalr.ResourceInfo) : Prop :=
  is_Some (armsignalr.ID service) ∧
  is_Some (armsignalr.Name service) ∧
  is_Some (sku ← armsignalr.SKU service; armsignalr.ResourceSKU_Name sku) ∧
  is_Some (armsignalr.Properties_ service).

(** A CosmosDB account that carries every field some rule of the catalog
    dereferences: [ID], [Name], [Properties] with its offer type, and in every
    location entry a location with [IsZoneRedundant]. *)
Definition cosmos_complete (account : armcosmos.DatabaseAccountGetResults) : Prop :=
  is_Some (armcosmos.ID account) ∧
  is_Some (armcosmos.Name account) ∧
  match armcosmos.Properties account with
  | Some properties =>
      is_Some (armcosmos.DatabaseAccountOfferType properties) ∧
      Forall (λ location, is_Some (zone_redundancy location))
             (armcosmos.Locations properties)
  | None => False
  end.

(** Every rule of the catalog returns on [target] from [s]. *)
Definition catalog_returns (rules : gmap string scanners.AzureRule)
    (target : any) (s : ptr scanners.ScanContext) : Prop :=
  ∀ k rule, rules !! k = Some rule → returned (scanners.Eval rule target s).1.

(** The rules that report a value (SLA, SKU) instead of checking one. *)
Definition informational (rule : scanners.AzureRule) : Prop :=
  scanners.Id rule ∈ ["sigr-003"; "sigr-005"; "cosmos-003"; "cosmos-005"].

(** The rules that read the diagnostics index. *)
Definition reads_diagnostics (rule : scanners.AzureRule) : Prop :=
  scanners.Id rule ∈ ["sigr-001"; "cosmos-001"].

(** What [Scan] copies into the Result of a listed item, whatever the catalog
    does. *)
Definition identity_of {Item} `{!Resource Item} (a : Scanner Item)
    (resourceGroupName : string) (g : ptr Item)
    (r : scanners.AzureServiceResult) : Prop :=
  ∃ g', g = Some g' ∧
    get_Name g' = Some (scanners.ServiceName r) ∧
    get_Type g' = Some (scanners.Type_ r) ∧
    get_Location g' = Some (scanners.Location r) ∧
    scanners.Result_SubscriptionID r = scanners.SubscriptionID (config a) ∧
    scanners.Result_SubscriptionName r = scanners.SubscriptionName (config a) ∧
    scanners.ResourceGroup r = resourceGroupName.

Module more_examples.

(** The index of [example.context] with the stored boolean flipped. *)
Definition context_false : scanners.ScanContext :=
  {| scanners.DiagnosticsSettings :=
       {[ "/subscriptions/s1/resourcegroups/rg/providers/microsoft.signalrservice/signalr/hub" := false ]} |}.

(** The five hubs of [example.five_hubs], delivered in one page. *)
Definition five_hubs_one_page : Scanner armsignalr.ResourceInfo :=
  {| config := example.subscription;
     client := λ _,
       [ page_ok [ Some (example.hub "sigr-a" (Some "Premium_P1"));
                   Some (example.hub "sigr-b" (Some "Standard_S1"));
                   Some (example.hub "c" (Some "Free_F1"));
                   Some (example.hub "sigr-d" (Some "Premium_P1"));
                   Some (example.hub "e" (Some "Standard_S1")) ] ] |}.

(** A Cognitive Services lister that answers with two empty pages. *)
Definition two_empty_pages : Scanner armcognitiveservices.Account :=
  {| config := example.subscription;
     client := λ _, [ page_ok []; page_ok [] ] |}.

(** A hub without SKU, and one without [Properties]. *)
Definition hub_without_sku : armsignalr.ResourceInfo :=
  {| armsignalr.ID := Some example.hub_id;
     armsignalr.Name := Some "sigr-a";
     armsignalr.Type_ := Some "Microsoft.SignalRService/SignalR";
     armsignalr.Location := Some "westeurope";
     armsignalr.SKU := None;
     armsignalr.Properties_ := Some {| armsignalr.PrivateEndpointConnections := [] |};
     armsignalr.Tags := ∅ |}.


(** A catalog with one rule that marks the context: it reports whether the
    key "seen" is missing from the diagnostics index and then sets it
    ([_, ok := scanContext.DiagnosticsSettings["seen"];
      scanContext.DiagnosticsSettings["seen"] = true; return !ok, ""]). *)
Definition marking_catalog : gmap string scanners.AzureRule :=
  {[ "mark-001" :=
       {| scanners.Id := "mark-001";
          scanners.Category := scanners.RulesCategoryGovernance;
          scanners.Recommendation := "first scan";
          scanners.Impact := scanners.ImpactLow;
          scanners.Eval := λ _,
            '(_, ok) ← scanners.DiagnosticsSettings_lookup "seen";
            scanContext ← load;
            ctx ← deref scanContext;
            _ ← store (Some {| scanners.DiagnosticsSettings :=
                                 <["seen" := true]> (scanners.DiagnosticsSettings ctx) |});
            mret (negb ok, "");
          scanners.Url := "" |} ]}.


End more_examples.

(** * Proofs *)

(** ** The monad *)

Section monad.
Context {S : Type}.

Lemma bind_returned {A B} (m : GoM S A) (f : A → GoM S B) s a s' :
  m s = (Returned a, s') → (m ≫= f) s = f a s'.
Proof. intros Hm. unfold mbind, GoM_bind. by rewrite Hm. Qed.

Lemma bind_panicked {A B} (m : GoM S A) (f : A → GoM S B) s p s' :
  m s = (Panicked p, s') → (m ≫= f) s = (Panicked p, s').
Proof. intros Hm. unfold mbind, GoM_bind. by rewrite Hm. Qed.

Lemma read_only_ret {A} (a : A) : read_only (mret a : GoM S A).
Proof. by intros s. Qed.

Lemma read_only_raise {A} p : read_only (raise p : GoM S A).
Proof. by intros s. Qed.

Lemma read_only_load : read_only (load : GoM S S).
Proof. by intros s. Qed.

Lemma read_only_deref {A} (p : ptr A) : read_only (deref p : GoM S A).
Proof. destruct p; [apply read_only_ret | apply read_only_raise]. Qed.

Lemma read_only_bind {A B} (m : GoM S A) (f : A → GoM S B) :
  read_only m → (∀ a, read_only (f a)) → read_only (m ≫= f).
Proof.
  intros Hm Hf s. specialize (Hm s).
  destruct (m s) as [[a|p] s'] eqn:E; simpl in Hm; subst s'.
  - rewrite (bind_returned _ _ _ _ _ E). apply Hf.
  - by rewrite (bind_panicked _ _ _ _ _ E).
Qed.

Lemma read_only_assert_signalr target : read_only (assert_signalr (S:=S) target).
Proof. destruct target; first [apply read_only_ret | apply read_only_raise]. Qed.

Lemma read_only_assert_cosmos target : read_only (assert_cosmos (S:=S) target).
Proof. destruct target; first [apply read_only_ret | apply read_only_raise]. Qed.

(** A read-only computation gives the same result when it is run again. *)
Lemma read_only_rerun {A} (m : GoM S A) s : read_only m → m (m s).2 = m s.
Proof. intros Hm. by rewrite Hm. Qed.

(** [store] is what a context-modifying evaluator would use; it is not
    read-only as soon as the object can take two values. *)
Lemma store_not_read_only (s s' : S) : s ≠ s' → ¬ read_only (store s').
Proof. intros Hne Hro. specialize (Hro s). simpl in Hro. congruence. Qed.
End monad.

Create HintDb frame discriminated.
#[export] Hint Resolve read_only_ret read_only_raise read_only_load read_only_deref
  read_only_assert_signalr read_only_assert_cosmos : frame.

(** Splits a sequence of binds into its steps and closes the atomic ones. *)
Ltac frame :=
  repeat first
    [ progress eauto 2 with frame
    | apply read_only_bind; [ | intros ]
    | match goal with
      | |- read_only (let '(_, _) := ?x in _) => destruct x
      | |- read_only (if ?b then _ else _) => destruct b
      | |- read_only (match ?x with _ => _ end) => destruct x
      end ].

Lemma read_only_DiagnosticsSettings_lookup key :
  read_only (scanners.DiagnosticsSettings_lookup key).
Proof. unfold scanners.DiagnosticsSettings_lookup. frame. Qed.
#[export] Hint Resolve read_only_DiagnosticsSettings_lookup : frame.

Lemma read_only_range_Locations_002 locations az ne n :
  read_only (cosmos.range_Locations_002 locations az ne n).
Proof.
  revert az ne n. induction locations as [|location locations IH]; intros; simpl.
  - frame.
  - frame; apply IH.
Qed.

Lemma read_only_range_Locations_003 locations sla az ne n :
  read_only (cosmos.range_Locations_003 locations sla az ne n).
Proof.
  revert sla az ne n. induction locations as [|location locations IH]; intros; simpl.
  - frame.
  - frame; apply IH.
Qed.
#[export] Hint Resolve read_only_range_Locations_002 read_only_range_Locations_003 : frame.

(** ** The catalogs *)

Section catalogs.
Context `{strings.CaseMapping}.
Import scanners.

Lemma sigr_lookup k rule :
  sigr.GetRules !! k = Some rule → (k, rule) ∈ sigr.GetRules_literal.
Proof. apply elem_of_list_to_map_2. Qed.

Lemma cosmos_lookup k rule :
  cosmos.GetRules !! k = Some rule → (k, rule) ∈ cosmos.GetRules_literal.
Proof. apply elem_of_list_to_map_2. Qed.

Lemma sigr_read_only : catalog_read_only sigr.GetRules.
Proof.
  intros k rule target Hk%sigr_lookup.
  unfold sigr.GetRules_literal in Hk.
  repeat (apply elem_of_cons in Hk as [Hk|Hk]; [inversion Hk; subst; clear Hk | ]);
    [ .. | by apply elem_of_nil in Hk ]; simpl.
  - unfold sigr.Eval_sigr_001. frame.
  - unfold sigr.Eval_sigr_002. frame.
  - unfold sigr.Eval_sigr_003. frame.
  - unfold sigr.Eval_sigr_004. frame.
  - unfold sigr.Eval_sigr_005. frame.
  - unfold sigr.Eval_sigr_006. frame.
  - unfold sigr.Eval_sigr_007. frame.
Qed.

Lemma cosmos_read_only : catalog_read_only cosmos.GetRules.
Proof.
  intros k rule target Hk%cosmos_lookup.
  unfold cosmos.GetRules_literal in Hk.
  repeat (apply elem_of_cons in Hk as [Hk|Hk]; [inversion Hk; subst; clear Hk | ]);
    [ .. | by apply elem_of_nil in Hk ]; simpl.
  - unfold cosmos.Eval_cosmos_001. frame.
  - unfold cosmos.Eval_cosmos_002. frame.
  - unfold cosmos.Eval_cosmos_003. frame.
  - unfold cosmos.Eval_cosmos_004. frame.
  - unfold cosmos.Eval_cosmos_005. frame.
  - unfold cosmos.Eval_cosmos_006. frame.
  - unfold cosmos.Eval_cosmos_007. frame.
  - unfold cosmos.Eval_cosmos_008. frame.
  - unfold cosmos.Eval_cosmos_009. frame.
Qed.
End catalogs.

(** Case analysis on an entry of a catalog. *)
Ltac catalog_entry Hk :=
  lazymatch type of Hk with
  | sigr.GetRules !! _ = Some _ =>
      apply sigr_lookup in Hk; unfold sigr.GetRules_literal in Hk
  | cosmos.GetRules !! _ = Some _ =>
      apply cosmos_lookup in Hk; unfold cosmos.GetRules_literal in Hk
  end;
  repeat (apply elem_of_cons in Hk as [Hk|Hk];
          [ inversion Hk; subst; clear Hk | ]);
  [ .. | by apply elem_of_nil in Hk ]; simpl in *.

(** Runs the monadic steps whose arguments are known. *)
Ltac run :=
  repeat (progress (unfold mbind, GoM_bind, mret, GoM_ret, deref, raise, load,
                      assert_signalr, assert_cosmos,
                      scanners.DiagnosticsSettings_lookup; simpl)).

(** ** Single rules *)

Section rules.
Context `{strings.CaseMapping}.
Import scanners.

Lemma Eval_sigr_001_eq service id ctx :
  armsignalr.ID service = Some id →
  sigr.Eval_sigr_001 (signalr_ResourceInfo (Some service)) (Some ctx) =
    (Returned (negb (bool_decide (is_Some (DiagnosticsSettings ctx !! strings.ToLower id))), ""),
     Some ctx).
Proof. intros Hid. unfold sigr.Eval_sigr_001. run. rewrite Hid. by run. Qed.

Lemma Eval_cosmos_001_eq account id ctx :
  armcosmos.ID account = Some id →
  cosmos.Eval_cosmos_001 (cosmos_DatabaseAccountGetResults (Some account)) (Some ctx) =
    (Returned (negb (bool_decide (is_Some (DiagnosticsSettings ctx !! strings.ToLower id))), ""),
     Some ctx).
Proof. intros Hid. unfold cosmos.Eval_cosmos_001. run. rewrite Hid. by run. Qed.

Lemma Eval_sigr_003_constant target s :
  sigr.Eval_sigr_003 target s = (Returned (false, "99.9%"), s).
Proof. done. Qed.

End rules.

(** The evaluators named in the statements below are the closures stored in
    the catalogs. *)
Lemma catalog_evaluators `{strings.CaseMapping} :
  scanners.Eval <$> sigr.GetRules !! "sigr-001" = Some sigr.Eval_sigr_001 ∧
  scanners.Eval <$> sigr.GetRules !! "sigr-002" = Some sigr.Eval_sigr_002 ∧
  scanners.Eval <$> sigr.GetRules !! "sigr-007" = Some sigr.Eval_sigr_007 ∧
  scanners.Eval <$> cosmos.GetRules !! "cosmos-001" = Some cosmos.Eval_cosmos_001 ∧
  scanners.Eval <$> cosmos.GetRules !! "cosmos-002" = Some cosmos.Eval_cosmos_002 ∧
  scanners.Eval <$> cosmos.GetRules !! "cosmos-003" = Some cosmos.Eval_cosmos_003 ∧
  scanners.Eval <$> cosmos.GetRules !! "cosmos-007" = Some cosmos.Eval_cosmos_007 ∧
  scanners.Eval <$> cosmos.GetRules !! "cosmos-008" = Some cosmos.Eval_cosmos_008.
Proof. repeat split; reflexivity. Qed.

Lemma example_context_lower_keyed : lower_keyed (H:=strings.ascii_case) example.context.
Proof.
  intros k Hk. unfold example.context in Hk. simpl in Hk.
  apply elem_of_dom in Hk as [v Hv].
  apply lookup_singleton_Some in Hv as [<- _]. reflexivity.
Qed.

(** ** C3: the diagnostics rules *)

(** C3.  For a SignalR resource and a CosmosDB account with identifier [id] and
    a scan context whose diagnostics index is keyed by lower-cased identifiers,
    sigr-001 and cosmos-001 return, leave the context as it is, and give
    (triggered, "") where triggered is false exactly when the lower-casing of
    [id] is a key of the index and true exactly when it is not; in particular
    an identifier that equals a key up to letter case is not triggered. *)
Theorem diagnostics_rule_follows_index `{strings.CaseMapping}
    (service : armsignalr.ResourceInfo) (account : armcosmos.DatabaseAccountGetResults)
    (id : string) (ctx : scanners.ScanContext) :
  armsignalr.ID service = Some id →
  armcosmos.ID account = Some id →
  lower_keyed ctx →
  ∃ triggered : bool,
    sigr.Eval_sigr_001 (signalr_ResourceInfo (Some service)) (Some ctx)
      = (Returned (triggered, ""), Some ctx) ∧
    cosmos.Eval_cosmos_001 (cosmos_DatabaseAccountGetResults (Some account)) (Some ctx)
      = (Returned (triggered, ""), Some ctx) ∧
    (triggered = false ↔ strings.ToLower id ∈ dom (scanners.DiagnosticsSettings ctx)) ∧
    (triggered = true ↔ strings.ToLower id ∉ dom (scanners.DiagnosticsSettings ctx)) ∧
    (∀ k, k ∈ dom (scanners.DiagnosticsSettings ctx) →
          strings.ToLower k = strings.ToLower id → triggered = false).
Proof.
  intros Hs Ha Hkeys.
  exists (negb (bool_decide (is_Some (scanners.DiagnosticsSettings ctx !! strings.ToLower id)))).
  split; [by apply Eval_sigr_001_eq|]. split; [by apply Eval_cosmos_001_eq|].
  rewrite elem_of_dom.
  assert (Hin : negb (bool_decide (is_Some (scanners.DiagnosticsSettings ctx !! strings.ToLower id))) = false
                ↔ is_Some (scanners.DiagnosticsSettings ctx !! strings.ToLower id)).
  { rewrite negb_false_iff. apply bool_decide_eq_true. }
  split; [exact Hin|]. split.
  - rewrite negb_true_iff. apply bool_decide_eq_false.
  - intros k Hk Heq. apply Hin. apply elem_of_dom.
    rewrite <- Heq, (Hkeys k Hk). exact Hk.
Qed.

Lemma diagnostics_rule_follows_index_witness :
  ∃ triggered : bool,
    sigr.Eval_sigr_001 (H:=strings.ascii_case)
        (signalr_ResourceInfo (Some (example.hub "sigr-a" None))) (Some example.context)
      = (Returned (triggered, ""), Some example.context) ∧
    cosmos.Eval_cosmos_001 (H:=strings.ascii_case)
        (cosmos_DatabaseAccountGetResults (Some (example.account None))) (Some example.context)
      = (Returned (triggered, ""), Some example.context) ∧
    (triggered = false ↔
       strings.lower_ascii example.hub_id ∈ dom (scanners.DiagnosticsSettings example.context)) ∧
    (triggered = true ↔
       strings.lower_ascii example.hub_id ∉ dom (scanners.DiagnosticsSettings example.context)) ∧
    (∀ k, k ∈ dom (scanners.DiagnosticsSettings example.context) →
          strings.lower_ascii k = strings.lower_ascii example.hub_id → triggered = false).
Proof.
  apply (diagnostics_rule_follows_index (H:=strings.ascii_case)
           (example.hub "sigr-a" None) (example.account None) example.hub_id example.context).
  - reflexivity.
  - reflexivity.
  - exact example_context_lower_keyed.
Defined.

(** The mixed-case identifier of the example is found under its lower-cased
    key. *)
Example diagnostics_mixed_case :
  sigr.Eval_sigr_001 (H:=strings.ascii_case)
      (signalr_ResourceInfo (Some (example.hub "sigr-a" None))) (Some example.context)
    = (Returned (false, ""), Some example.context).
Proof. vm_compute. reflexivity. Qed.

(** ** C6: the tags rules *)

(** C6.  On a SignalR resource (sigr-007) and on a CosmosDB account
    (cosmos-007) the tags rule returns (triggered, "") with triggered true
    exactly when the Tags map is empty and false exactly when it holds at least
    one tag. *)
Theorem tags_rule_counts_tags (service : armsignalr.ResourceInfo)
    (account : armcosmos.DatabaseAccountGetResults) (s : ptr scanners.ScanContext) :
  ∃ triggered_sigr triggered_cosmos : bool,
    sigr.Eval_sigr_007 (signalr_ResourceInfo (Some service)) s
      = (Returned (triggered_sigr, ""), s) ∧
    cosmos.Eval_cosmos_007 (cosmos_DatabaseAccountGetResults (Some account)) s
      = (Returned (triggered_cosmos, ""), s) ∧
    (triggered_sigr = true ↔ size (armsignalr.Tags service) = 0) ∧
    (triggered_sigr = false ↔ 0 < size (armsignalr.Tags service)) ∧
    (triggered_cosmos = true ↔ size (armcosmos.Tags account) = 0) ∧
    (triggered_cosmos = false ↔ 0 < size (armcosmos.Tags account)).
Proof.
  exists (bool_decide (size (armsignalr.Tags service) = 0)),
         (bool_decide (size (armcosmos.Tags account) = 0)).
  repeat split; try done.
  - apply bool_decide_eq_true_1.
  - apply bool_decide_eq_true_2.
  - intros Hf%bool_decide_eq_false_1. lia.
  - intros Hpos. apply bool_decide_eq_false_2. lia.
  - apply bool_decide_eq_true_1.
  - apply bool_decide_eq_true_2.
  - intros Hf%bool_decide_eq_false_1. lia.
  - intros Hpos. apply bool_decide_eq_false_2. lia.
Qed.

(** The scenario of the specification: no tag, then one tag. *)
Example tags_scenario :
  sigr.Eval_sigr_007 (signalr_ResourceInfo (Some (example.hub "A" None))) None
    = (Returned (true, ""), None) ∧
  cosmos.Eval_cosmos_007 (cosmos_DatabaseAccountGetResults (Some (example.account None))) None
    = (Returned (false, ""), None).
Proof. split; vm_compute; reflexivity. Qed.

(** ** C5: a target of the wrong dynamic type *)

(** C5.  For every entry of the SignalR and CosmosDB catalogs whose evaluator
    inspects its target, and every target whose dynamic type is not the pointer
    type the catalog is written for, evaluation panics on the type assertion (it
    returns no outcome) and leaves the scan context as it is. *)
Theorem wrong_type_panics `{strings.CaseMapping} (rule : scanners.AzureRule)
    (expects : any → bool) (target : any) (s : ptr scanners.ScanContext) :
  catalog_rule rule expects →
  inspects_target rule →
  expects target = false →
  scanners.Eval rule target s = (Panicked TypeAssertionFailed, s).
Proof.
  intros [k r Hk|k r Hk] Hinspects Htype; catalog_entry Hk;
    try (destruct target; simpl in Htype; try discriminate Htype; reflexivity).
  destruct Hinspects as (t1 & t2 & s' & Hne). by destruct Hne.
Qed.

Lemma sigr_007_inspects_target :
  ∀ rule, sigr.GetRules (H:=strings.ascii_case) !! "sigr-007" = Some rule →
          inspects_target rule.
Proof.
  intros rule Hk. catalog_entry Hk.
  exists nil_interface, (signalr_ResourceInfo (Some (example.hub "sigr-a" None))), None.
  discriminate.
Qed.

Lemma wrong_type_panics_witness :
  ∃ rule,
    sigr.GetRules (H:=strings.ascii_case) !! "sigr-007" = Some rule ∧
    scanners.Eval rule
        (cosmos_DatabaseAccountGetResults (Some (example.account None)))
        (Some example.context)
      = (Panicked TypeAssertionFailed, Some example.context).
Proof.
  eexists. split; [reflexivity|].
  apply (wrong_type_panics (H:=strings.ascii_case) _ is_signalr).
  - by apply (catalog_rule_sigr (H:=strings.ascii_case) "sigr-007").
  - by apply sigr_007_inspects_target.
  - reflexivity.
Defined.

(** ** C7: rule ids *)

Lemma literal_keys_NoDup `{strings.CaseMapping} :
  NoDup sigr.GetRules_literal.*1 ∧ NoDup cosmos.GetRules_literal.*1.
Proof. split; apply (bool_decide_unpack _); vm_compute; exact I. Qed.

Lemma sigr_entries `{strings.CaseMapping} :
  map_to_list sigr.GetRules ≡ₚ sigr.GetRules_literal.
Proof. apply map_to_list_to_map, literal_keys_NoDup. Qed.

Lemma cosmos_entries `{strings.CaseMapping} :
  map_to_list cosmos.GetRules ≡ₚ cosmos.GetRules_literal.
Proof. apply map_to_list_to_map, literal_keys_NoDup. Qed.

(** C7.  In the catalog returned by either [GetRules], the ids of the rules are
    pairwise distinct and every rule is stored under its own id; the literal
    has no repeated key, so the catalog holds all seven (SignalR) resp. nine
    (CosmosDB) entries. *)
Theorem catalog_ids_unique `{strings.CaseMapping} :
  (NoDup (scanners.Id <$> (map_to_list sigr.GetRules).*2) ∧
   map_Forall (λ k rule, scanners.Id rule = k) sigr.GetRules ∧
   NoDup sigr.GetRules_literal.*1 ∧
   size sigr.GetRules = 7) ∧
  (NoDup (scanners.Id <$> (map_to_list cosmos.GetRules).*2) ∧
   map_Forall (λ k rule, scanners.Id rule = k) cosmos.GetRules ∧
   NoDup cosmos.GetRules_literal.*1 ∧
   size cosmos.GetRules = 9).
Proof.
  split; (split; [|split; [|split]]).
  - rewrite sigr_entries. apply (bool_decide_unpack _); vm_compute; exact I.
  - intros k rule Hk. by catalog_entry Hk.
  - apply literal_keys_NoDup.
  - by rewrite <- length_map_to_list, sigr_entries.
  - rewrite cosmos_entries. apply (bool_decide_unpack _); vm_compute; exact I.
  - intros k rule Hk. by catalog_entry Hk.
  - apply literal_keys_NoDup.
  - by rewrite <- length_map_to_list, cosmos_entries.
Qed.

(** ** C8: evaluation does not write *)

(** C8.  For every entry of the SignalR and CosmosDB catalogs, every target and
    every scan context (also behind a nil pointer, also when the evaluation
    panics), evaluation leaves the scan context as it was, and evaluating again
    on what it left gives the same result: the outcome is a function of the
    target and the context. *)
Theorem evaluation_leaves_context `{strings.CaseMapping} (rule : scanners.AzureRule)
    (expects : any → bool) (target : any) (s : ptr scanners.ScanContext) :
  catalog_rule rule expects →
  (scanners.Eval rule target s).2 = s ∧
  scanners.Eval rule target (scanners.Eval rule target s).2 = scanners.Eval rule target s.
Proof.
  intros Hrule.
  assert (Hro : read_only (scanners.Eval rule target)).
  { destruct Hrule as [k r Hk|k r Hk].
    - by eapply sigr_read_only.
    - by eapply cosmos_read_only. }
  split; [apply Hro | by apply read_only_rerun].
Qed.

Lemma evaluation_leaves_context_witness :
  ∃ rule,
    cosmos.GetRules (H:=strings.ascii_case) !! "cosmos-001" = Some rule ∧
    let target := cosmos_DatabaseAccountGetResults (Some (example.account None)) in
    (scanners.Eval rule target (Some example.context)).2 = Some example.context ∧
    scanners.Eval rule target (scanners.Eval rule target (Some example.context)).2
      = scanners.Eval rule target (Some example.context).
Proof.
  eexists. split; [reflexivity|].
  apply (evaluation_leaves_context (H:=strings.ascii_case) _ is_cosmos).
  by apply (catalog_rule_cosmos (H:=strings.ascii_case) "cosmos-001").
Defined.

(** A rule that recorded its lookups in the index would not be read-only: the
    property is one of the code, not of the type of [Eval]. *)
Example recording_rule_writes :
  ¬ read_only (store (S:=ptr scanners.ScanContext) (Some example.context)).
Proof. by apply (store_not_read_only None). Qed.

(** ** C4: absent optional fields *)

(** C4.  What the evaluators do on a resource of the right type with an absent
    optional field: sigr-002 panics on an absent [SKU.Name] and cosmos-002 on an
    absent [IsZoneRedundant], where cosmos-008 tests [DisableLocalAuth] against
    nil and returns (true, "") on an absent one. *)
Theorem absent_optional_fields :
  sigr.Eval_sigr_002
      (signalr_ResourceInfo (Some (example.hub "sigr-a" None))) (Some example.context)
    = (Panicked NilDereference, Some example.context) ∧
  cosmos.Eval_cosmos_002
      (cosmos_DatabaseAccountGetResults
         (Some (example.account (Some (example.properties [Some true; None] None)))))
      (Some example.context)
    = (Panicked NilDereference, Some example.context) ∧
  cosmos.Eval_cosmos_008
      (cosmos_DatabaseAccountGetResults
         (Some (example.account (Some (example.properties [Some true; None] None)))))
      (Some example.context)
    = (Returned (true, ""), Some example.context).
Proof. repeat split. Qed.

(** ** C10: the SLA of a CosmosDB account *)

Section sla.
Import scanners.

(** What the two loops compute when every entry is a location with a known
    zone redundancy. *)
Lemma range_Locations_002_eq locations zones az ne n s :
  zone_redundancy <$> locations = Some <$> zones →
  cosmos.range_Locations_002 locations az ne n s =
    (Returned (az || existsb id zones, ne || existsb negb zones, n + length zones), s).
Proof.
  revert zones az ne n.
  induction locations as [|location locations IH]; intros [|z zones] az ne n Hz;
    try discriminate Hz.
  - simpl. by rewrite !orb_false_r, Nat.add_0_r.
  - injection Hz as Hl Hz.
    destruct location as [[[z'|]]|]; try discriminate Hl.
    injection Hl as ->.
    simpl. run. destruct z; rewrite (IH zones) by done; simpl;
      repeat f_equal; try lia; try by rewrite ?orb_true_r, ?orb_assoc.
Qed.

Lemma range_Locations_003_eq locations zones sla az ne n s :
  zone_redundancy <$> locations = Some <$> zones →
  cosmos.range_Locations_003 locations sla az ne n s =
    (Returned (if existsb id zones then "99.995%" else sla,
               az || existsb id zones, ne || existsb negb zones,
               n + length zones), s).
Proof.
  revert zones sla az ne n.
  induction locations as [|location locations IH]; intros [|z zones] sla az ne n Hz;
    try discriminate Hz.
  - simpl. by rewrite !orb_false_r, Nat.add_0_r.
  - injection Hz as Hl Hz.
    destruct location as [[[z'|]]|]; try discriminate Hl.
    injection Hl as ->.
    simpl. run. destruct z; rewrite (IH zones) by done; simpl;
      repeat f_equal; try lia; try by rewrite ?orb_true_r, ?orb_assoc.
    by destruct (existsb id zones).
Qed.

Lemma existsb_negb_false (zones : list bool) :
  existsb negb zones = false ↔ Forall (λ z, z = true) zones.
Proof.
  induction zones as [|[] zones IH]; simpl.
  - split; [constructor | done].
  - rewrite IH. split; [by constructor | by inversion 1].
  - split; [done | by inversion 1].
Qed.

Lemma existsb_id_false (zones : list bool) :
  existsb id zones = false ↔ Forall (λ z, z = false) zones.
Proof.
  induction zones as [|[] zones IH]; simpl.
  - split; [constructor | done].
  - split; [done | by inversion 1].
  - rewrite IH. split; [by constructor | by inversion 1].
Qed.

Lemma existsb_id_true (zones : list bool) :
  existsb id zones = true ↔ Exists (λ z, z = true) zones.
Proof.
  induction zones as [|[] zones IH]; simpl.
  - split; [done | by inversion 1].
  - split; [by left | done].
  - rewrite IH. split; [by right | by inversion 1].
Qed.

End sla.

(** C10, as amended.  For a CosmosDB account that has a [Properties] block and
    whose location entries are all locations with [IsZoneRedundant] set (their
    values being [zones]): cosmos-002 and cosmos-003 return and leave the
    context as it is; cosmos-003 is never triggered; cosmos-002 is not triggered
    exactly when there are at least two locations, all zone-redundant; and the
    detail of cosmos-003 is "99.999%" exactly when cosmos-002 is not triggered,
    "99.995%" when a location is zone-redundant but cosmos-002 is triggered, and
    "99.99%" when no location is zone-redundant. *)
Theorem sla_follows_zones (account : armcosmos.DatabaseAccountGetResults)
    (properties : armcosmos.DatabaseAccountGetProperties) (zones : list bool)
    (s : ptr scanners.ScanContext) :
  armcosmos.Properties account = Some properties →
  zone_redundancy <$> armcosmos.Locations properties = Some <$> zones →
  ∃ (triggered : bool) (sla : string),
    cosmos.Eval_cosmos_002 (cosmos_DatabaseAccountGetResults (Some account)) s
      = (Returned (triggered, ""), s) ∧
    cosmos.Eval_cosmos_003 (cosmos_DatabaseAccountGetResults (Some account)) s
      = (Returned (false, sla), s) ∧
    (triggered = false ↔ (2 ≤ length zones)%nat ∧ Forall (λ z, z = true) zones) ∧
    (sla = "99.999%" ↔ triggered = false) ∧
    (Exists (λ z, z = true) zones → triggered = true → sla = "99.995%") ∧
    (Forall (λ z, z = false) zones → sla = "99.99%").
Proof.
  intros Hp Hz.
  unfold cosmos.Eval_cosmos_002, cosmos.Eval_cosmos_003. run. rewrite Hp. run.
  rewrite (range_Locations_002_eq _ zones), (range_Locations_003_eq _ zones) by done.
  simpl.
  pose proof (existsb_negb_false zones) as Hall.
  pose proof (existsb_id_false zones) as Hnone.
  pose proof (existsb_id_true zones) as Hsome.
  assert (Hne : (2 ≤ length zones)%nat → Forall (λ z, z = true) zones → existsb id zones = true).
  { destruct zones as [|[] ?]; simpl; [lia|done|by inversion 2]. }
  eexists _, _. split; [reflexivity|]. split; [reflexivity|].
  destruct (existsb id zones) eqn:Ea, (existsb negb zones) eqn:Eb;
    case_bool_decide; simpl; repeat split; try done; try tauto; try lia;
    intros; try (exfalso; intuition congruence); intuition (try congruence; try lia).
Qed.

Lemma sla_follows_zones_witness :
  ∃ (triggered : bool) (sla : string),
    let account := example.account (Some (example.properties [Some true; Some false] None)) in
    let zones := [true; false] in
    cosmos.Eval_cosmos_002 (cosmos_DatabaseAccountGetResults (Some account)) None
      = (Returned (triggered, ""), None) ∧
    cosmos.Eval_cosmos_003 (cosmos_DatabaseAccountGetResults (Some account)) None
      = (Returned (false, sla), None) ∧
    (triggered = false ↔ (2 ≤ length zones)%nat ∧ Forall (λ z, z = true) zones) ∧
    (sla = "99.999%" ↔ triggered = false) ∧
    (Exists (λ z, z = true) zones → triggered = true → sla = "99.995%") ∧
    (Forall (λ z, z = false) zones → sla = "99.99%").
Proof.
  apply (sla_follows_zones
           (example.account (Some (example.properties [Some true; Some false] None)))
           (example.properties [Some true; Some false] None) [true; false] None).
  - reflexivity.
  - reflexivity.
Defined.

(** The three SLA values, on accounts with two zone-redundant locations, with
    one of two, and with none. *)
Example sla_values :
  (cosmos.Eval_cosmos_003 (cosmos_DatabaseAccountGetResults
     (Some (example.account (Some (example.properties [Some true; Some true] None))))) None).1
    = Returned (false, "99.999%") ∧
  (cosmos.Eval_cosmos_003 (cosmos_DatabaseAccountGetResults
     (Some (example.account (Some (example.properties [Some true; Some false] None))))) None).1
    = Returned (false, "99.995%") ∧
  (cosmos.Eval_cosmos_003 (cosmos_DatabaseAccountGetResults
     (Some (example.account (Some (example.properties [Some false] None))))) None).1
    = Returned (false, "99.99%").
Proof. repeat split. Qed.

(** C10 as stated fails on an account without a [Properties] block: it has no
    location entry, so all of them have [IsZoneRedundant] set, and cosmos-003
    panics on [i.Properties.Locations] instead of returning. *)
Lemma sla_without_properties :
  Forall (λ location, is_Some (zone_redundancy location))
         (locations_of (example.account None)) ∧
  cosmos.Eval_cosmos_003
      (cosmos_DatabaseAccountGetResults (Some (example.account None))) (Some example.context)
    = (Panicked NilDereference, Some example.context) ∧
  cosmos.Eval_cosmos_002
      (cosmos_DatabaseAccountGetResults (Some (example.account None))) (Some example.context)
    = (Panicked NilDereference, Some example.context).
Proof. split; [constructor | split; reflexivity]. Qed.

(** ** The rule engine *)

Section engine.
Import scanners.




(** The empty catalog gives the empty outcome map. *)
Lemma EvaluateRules_empty target s :
  EvaluateRules ∅ target s = (Returned ∅, s).
Proof. reflexivity. Qed.

End engine.

(** ** The listers and [Scan] *)

Section scan.
Import scanners.
Context {Item : Type} `{!Resource Item}.
Variable GetRules : gmap string AzureRule.

Lemma next_pages_ok (pages : list (list (ptr Item))) items :
  next_pages (page_ok <$> pages) items = ((items ++ concat pages)%list, None).
Proof.
  revert items. induction pages as [|Value pages IH]; intros items; simpl.
  - by rewrite app_nil_r.
  - by rewrite IH, app_assoc.
Qed.

Lemma next_pages_error (pages : list (list (ptr Item))) err rest items :
  next_pages ((page_ok <$> pages) ++ page_error err :: rest)%list items = ([], Some err).
Proof.
  revert items. induction pages as [|Value pages IH]; intros items; simpl; [done|].
  apply IH.
Qed.

(** The lister never returns items together with an error. *)
Lemma next_pages_all_or_nothing (pager : Pager Item) items listed err :
  next_pages pager items = (listed, Some err) → listed = [].
Proof.
  revert items. induction pager as [|[Value|err'] pager IH]; intros items; simpl.
  - discriminate.
  - apply IH.
  - by intros [= <- _].
Qed.



(** [Scan] returns an error only from the lister, and then without results
    and without having touched the context. *)
Lemma Scan_error_inv (a : Scanner Item) resourceGroupName s results err s' :
  Scan GetRules a resourceGroupName s = (Returned (results, Some err), s') →
  results = [] ∧ s' = s ∧ (list_items a resourceGroupName).2 = Some err.
Proof.
  unfold Scan. destruct (list_items a resourceGroupName) as [items [err'|]]; simpl.
  - by intros [= <- <- <-].
  - unfold mbind, GoM_bind.
    destruct (range_items _ _ _ _ _ _) as [[rs|p] s'']; simpl; discriminate.
Qed.

(** The loop of [Scan] on items that carry their identity fields and on which
    the engine, run item after item, returns. *)
Lemma range_items_run (a : Scanner Item) resourceGroupName items results s rrs s' :
  Forall identified items →
  evaluate_items GetRules items s = (Returned rrs, s') →
  ∃ results',
    range_items GetRules a resourceGroupName items results s
      = (Returned (results ++ results')%list, s') ∧
    Forall2 (identity_of a resourceGroupName) items results' ∧
    Rules <$> results' = rrs.
Proof.
  intros Hid. revert results s rrs.
  induction Hid as [|g items Hg _ IH]; intros results s rrs; simpl.
  - intros [= <- <-]. exists []. by rewrite app_nil_r.
  - unfold mbind at 1 3, GoM_bind at 1 3.
    destruct (EvaluateRules GetRules (as_target g) s) as [[rr|p] s1]; [|done].
    unfold mbind at 1, GoM_bind at 1.
    destruct (evaluate_items GetRules items s1) as [[rrs'|p] s2] eqn:Hrest; [|done].
    intros [= <- <-].
    destruct g as [g'|]; [|done].
    destruct Hg as ([name Hname] & [type Htype] & [location Hlocation]).
    run. rewrite Hname, Htype, Hlocation. run.
    match goal with
    | |- context [range_items _ _ _ _ ?acc _] =>
        destruct (IH acc _ _ Hrest) as (results' & Hloop & Hall & Hrules)
    end.
    rewrite Hloop.
    eexists (_ :: results'). split; [by rewrite <- app_assoc|]. split.
    + constructor; [|done]. exists g'. by repeat split.
    + by rewrite fmap_cons, Hrules.
Qed.

End scan.

(** ** C1: a failed listing *)

(** C1.  For every scanner variant (every resource type and catalog), resource
    group and scan context: if the lister's pager answers with some successful
    pages and then with an error, [Scan] returns no results and that error,
    whatever the pager would have answered afterwards, and leaves the context
    as it is.  And whenever [Scan] returns a non-nil error, its result slice is
    empty. *)
Theorem Scan_listing_error {Item : Type} `{!Resource Item}
    (GetRules : gmap string scanners.AzureRule) (a : Scanner Item)
    (resourceGroupName : string) (s : ptr scanners.ScanContext)
    (pages : list (list (ptr Item))) (err : error) (rest : Pager Item) :
  client a resourceGroupName = ((page_ok <$> pages) ++ page_error err :: rest)%list →
  Scan GetRules a resourceGroupName s = (Returned ([], Some err), s) ∧
  (∀ (a' : Scanner Item) resourceGroupName' s0 results err' s',
     Scan GetRules a' resourceGroupName' s0 = (Returned (results, Some err'), s') →
     results = []).
Proof.
  intros Hpager. split.
  - unfold Scan, list_items. by rewrite Hpager, next_pages_error.
  - intros a' rg' s0 results err' s' HScan.
    by apply Scan_error_inv in HScan as [-> _].
Qed.

Lemma Scan_listing_error_witness :
  Scan (sigr.GetRules (H:=strings.ascii_case)) example.throttled "RG" (Some example.context)
    = (Returned ([], Some {| Error := "429 Too Many Requests" |}), Some example.context) ∧
  (∀ (a' : Scanner armsignalr.ResourceInfo) resourceGroupName' s0 results err' s',
     Scan (sigr.GetRules (H:=strings.ascii_case)) a' resourceGroupName' s0
       = (Returned (results, Some err'), s') →
     results = []).
Proof.
  apply (Scan_listing_error (sigr.GetRules (H:=strings.ascii_case)) example.throttled
           "RG" (Some example.context)
           [[Some (example.hub "sigr-a" (Some "Premium_P1"))]]
           {| Error := "429 Too Many Requests" |}
           [page_ok [Some (example.hub "sigr-b" (Some "Standard_S1"))]]).
  reflexivity.
Defined.

(** The four scanners of the sources are instances of the variant. *)
Lemma Scan_listing_error_variants GetRules rg s err :
  (∀ a : cog.CognitiveScanner, cog.listEventHubs a rg = ([], Some err) →
     cog.Scan GetRules a rg s = (Returned ([], Some err), s)) ∧
  (∀ a : redis.RedisScanner, redis.listRedis a rg = ([], Some err) →
     redis.Scan GetRules a rg s = (Returned ([], Some err), s)) ∧
  (∀ a : mysql.MySQLFlexibleScanner, mysql.listFlexiblePostgre a rg = ([], Some err) →
     mysql.Scan GetRules a rg s = (Returned ([], Some err), s)) ∧
  (∀ a : dec.DataExplorerScanner, dec.listClusters a rg = ([], Some err) →
     dec.Scan GetRules a rg s = (Returned ([], Some err), s)).
Proof.
  repeat split; intros a Hlist;
    unfold cog.Scan, redis.Scan, mysql.Scan, dec.Scan, Scan;
    unfold cog.listEventHubs, redis.listRedis, mysql.listFlexiblePostgre,
      dec.listClusters in Hlist;
    by rewrite Hlist.
Qed.

(** ** C2: a successful listing *)

(** C2, as amended.  For every scanner variant and catalog, and every sequence
    of successful pages whose items are resources carrying [Name], [Type] and
    [Location] and on which the rule engine, run item after item in listing
    order, returns: [Scan] returns a nil error and exactly one Result per listed
    item, in listing order, each with [ServiceName], [Type] and [Location]
    copied from its item, the subscription taken from the configuration and
    [ResourceGroup] equal to the argument; the [Rules] of the Results are, in
    order, the outcomes the engine returned, and the context is left as the
    engine left it.  A listing without items gives the empty Result
    sequence. *)
Theorem Scan_successful_pages {Item : Type} `{!Resource Item}
    (GetRules : gmap string scanners.AzureRule) (a : Scanner Item)
    (resourceGroupName : string) (s : ptr scanners.ScanContext)
    (pages : list (list (ptr Item))) :
  client a resourceGroupName = page_ok <$> pages →
  Forall identified (concat pages) →
  returned (evaluate_items GetRules (concat pages) s).1 →
  ∃ results,
    Scan GetRules a resourceGroupName s
      = (Returned (results, None), (evaluate_items GetRules (concat pages) s).2) ∧
    Forall2 (identity_of a resourceGroupName) (concat pages) results ∧
    (evaluate_items GetRules (concat pages) s).1
      = Returned (scanners.Rules <$> results) ∧
    length results = length (concat pages) ∧
    (concat pages = [] → results = []).
Proof.
  intros Hpager Hid Hret.
  destruct (evaluate_items GetRules (concat pages) s) as [[rrs|p] s'] eqn:Hrun;
    [|done].
  destruct (range_items_run GetRules a resourceGroupName (concat pages) [] s rrs s'
              Hid Hrun) as (results & Hloop & Hall & Hrules).
  exists results. split; [|split; [done|split; [|split]]].
  - unfold Scan, list_items. rewrite Hpager, next_pages_ok. simpl.
    by rewrite (bind_returned _ _ _ _ _ Hloop).
  - simpl. by rewrite Hrules.
  - symmetry. by eapply Forall2_length.
  - intros Hnil. rewrite Hnil in Hall. by inversion Hall.
Qed.

Lemma five_hubs_engine_returns :
  returned (evaluate_items (sigr.GetRules (H:=strings.ascii_case))
              (concat [ [ Some (example.hub "sigr-a" (Some "Premium_P1"));
                          Some (example.hub "sigr-b" (Some "Standard_S1"));
                          Some (example.hub "c" (Some "Free_F1")) ];
                        [ Some (example.hub "sigr-d" (Some "Premium_P1"));
                          Some (example.hub "e" (Some "Standard_S1")) ] ])
              (Some example.context)).1.
Proof. vm_compute. exact I. Qed.

Lemma five_hubs_identified :
  Forall identified
         (concat [ [ Some (example.hub "sigr-a" (Some "Premium_P1"));
                     Some (example.hub "sigr-b" (Some "Standard_S1"));
                     Some (example.hub "c" (Some "Free_F1")) ];
                   [ Some (example.hub "sigr-d" (Some "Premium_P1"));
                     Some (example.hub "e" (Some "Standard_S1")) ] ]).
Proof.
  cbn [concat app].
  repeat (apply Forall_cons_2; [repeat split; eexists; reflexivity|]).
  apply Forall_nil_2.
Qed.

Lemma Scan_successful_pages_witness :
  let pages :=
    [ [ Some (example.hub "sigr-a" (Some "Premium_P1"));
        Some (example.hub "sigr-b" (Some "Standard_S1"));
        Some (example.hub "c" (Some "Free_F1")) ];
      [ Some (example.hub "sigr-d" (Some "Premium_P1"));
        Some (example.hub "e" (Some "Standard_S1")) ] ] in
  let rules := sigr.GetRules (H:=strings.ascii_case) in
  ∃ results,
    Scan rules example.five_hubs "RG" (Some example.context)
      = (Returned (results, None),
         (evaluate_items rules (concat pages) (Some example.context)).2) ∧
    Forall2 (identity_of example.five_hubs "RG") (concat pages) results ∧
    (evaluate_items rules (concat pages) (Some example.context)).1
      = Returned (scanners.Rules <$> results) ∧
    length results = length (concat pages) ∧
    (concat pages = [] → results = []).
Proof.
  apply (Scan_successful_pages (sigr.GetRules (H:=strings.ascii_case)) example.five_hubs
           "RG" (Some example.context)).
  - reflexivity.
  - exact five_hubs_identified.
  - exact five_hubs_engine_returns.
Defined.

(** The theorem does not ask the catalog to leave the context alone: with the
    marking catalog, which writes to it, the five hubs still give five
    Results. *)
Example five_hubs_marked :
  match (Scan more_examples.marking_catalog example.five_hubs "RG"
           (Some example.context)).1 with
  | Returned (results, None) => scanners.ServiceName <$> results
  | _ => []
  end = ["sigr-a"; "sigr-b"; "c"; "sigr-d"; "e"].
Proof. vm_compute. reflexivity. Qed.

(** The scenario of the specification, run: pages of three and of two items
    give five Results, named after their items in listing order. *)
Example five_hubs_scanned :
  match (Scan (sigr.GetRules (H:=strings.ascii_case)) example.five_hubs "RG"
           (Some example.context)).1 with
  | Returned (results, None) => scanners.ServiceName <$> results
  | _ => []
  end = ["sigr-a"; "sigr-b"; "c"; "sigr-d"; "e"].
Proof. vm_compute. reflexivity. Qed.

(** A resource group without instances: one empty page, no Result, no error. *)
Example empty_group_scanned GetRules s :
  cog.Scan GetRules {| config := example.subscription; client := λ _, [page_ok []] |} "RG" s
    = (Returned ([], None), s).
Proof. reflexivity. Qed.

(** C2 as stated fails on a successful page that lists an account without a
    name: [Scan] of the Cognitive Services scanner panics on [*eventHub.Name]
    and returns no Result (here with the empty catalog, on which the engine
    returns at once). *)
Lemma Scan_unnamed_item :
  client example.unnamed_account "RG"
    = page_ok <$> [ [ Some {| armcognitiveservices.ID := Some "/subscriptions/s1/x";
                             armcognitiveservices.Name := None;
                             armcognitiveservices.Type_ := Some "Microsoft.CognitiveServices/accounts";
                             armcognitiveservices.Location := Some "westeurope";
                             armcognitiveservices.Tags := ∅ |} ] ] ∧
  cog.Scan ∅ example.unnamed_account "RG" (Some example.context)
    = (Panicked NilDereference, Some example.context).
Proof. split; reflexivity. Qed.

(** ** C9: scanning twice *)




(** * Further properties of the listers and of [Scan] *)

Section listing.
Import scanners.
Context {Item : Type} `{!Resource Item}.

(** Every pager is a run of successful pages, followed by nothing or by a
    failing page and whatever comes after it. *)
Lemma pager_split (pager : Pager Item) :
  (∃ pages, pager = page_ok <$> pages) ∨
  (∃ pages err rest, pager = ((page_ok <$> pages) ++ page_error err :: rest)%list).
Proof.
  induction pager as [|[Value|err] pager IH].
  - left. by exists [].
  - destruct IH as [[pages ->]|(pages & err & rest & ->)].
    + left. by exists (Value :: pages).
    + right. by exists (Value :: pages), err, rest.
  - right. by exists [], err, pager.
Qed.

(** X1.  The lister of every scanner ([listEventHubs], [listRedis],
    [listFlexiblePostgre], [listClusters]) has two outcomes only: all pages
    succeed and it returns their values, concatenated in page order, with a nil
    error; or it returns no item and the error of the first failing page. *)
Theorem lister_outcomes (a : Scanner Item) (resourceGroupName : string) :
  (∃ pages,
     client a resourceGroupName = page_ok <$> pages ∧
     list_items a resourceGroupName = (concat pages, None)) ∨
  (∃ pages err rest,
     client a resourceGroupName = ((page_ok <$> pages) ++ page_error err :: rest)%list ∧
     list_items a resourceGroupName = ([], Some err)).
Proof.
  unfold list_items.
  destruct (pager_split (client a resourceGroupName))
    as [[pages Hp]|(pages & err & rest & Hp)]; rewrite Hp.
  - left. exists pages. by rewrite next_pages_ok.
  - right. exists pages, err, rest. by rewrite next_pages_error.
Qed.

Variable GetRules : gmap string AzureRule.

(** X2.  When every page of the listing is empty (also when there are several,
    or none), [Scan] returns no Result and a nil error without evaluating a
    rule: the outcome does not depend on the catalog and the context is not
    touched. *)
Theorem Scan_empty_pages (a : Scanner Item) (resourceGroupName : string)
    (s : ptr ScanContext) (pages : list (list (ptr Item))) :
  client a resourceGroupName = page_ok <$> pages →
  Forall (λ Value, Value = []) pages →
  Scan GetRules a resourceGroupName s = (Returned ([], None), s).
Proof.
  intros Hp Hempty. unfold Scan, list_items. rewrite Hp, next_pages_ok.
  assert (concat pages = []) as ->; [|done].
  clear Hp. induction Hempty as [|Value pages -> _ IH]; [done|exact IH].
Qed.

(** X3.  Page boundaries do not matter: two scanners with the same
    configuration whose listers deliver the same items over successful pages,
    however cut into pages, give the same [Scan] outcome. *)
Theorem Scan_page_boundaries (a b : Scanner Item) (resourceGroupName : string)
    (s : ptr ScanContext) (pages pages' : list (list (ptr Item))) :
  config a = config b →
  client a resourceGroupName = page_ok <$> pages →
  client b resourceGroupName = page_ok <$> pages' →
  concat pages = concat pages' →
  Scan GetRules a resourceGroupName s = Scan GetRules b resourceGroupName s.
Proof.
  intros Hc Ha Hb Hitems. unfold Scan, list_items.
  rewrite Ha, Hb, !next_pages_ok, Hitems. simpl.
  assert (Hloop : ∀ items results s0,
            range_items GetRules a resourceGroupName items results s0
            = range_items GetRules b resourceGroupName items results s0).
  { induction items as [|g items IH]; intros results s0; simpl; [done|].
    unfold mbind, GoM_bind.
    destruct (EvaluateRules GetRules (as_target g) s0) as [[rr|p] s1]; [|done].
    destruct (deref g s1) as [[g'|p] s2]; [|done].
    destruct (deref (get_Name g') s2) as [[name|p] s3]; [|done].
    destruct (deref (get_Type g') s3) as [[type|p] s4]; [|done].
    destruct (deref (get_Location g') s4) as [[location|p] s5]; [|done].
    rewrite Hc. apply IH. }
  unfold mbind, GoM_bind. by rewrite Hloop.
Qed.

(** The loop of [Scan], read backwards: what it returned are the results it
    started with followed by one Result per item. *)
Lemma range_items_inv (a : Scanner Item) resourceGroupName items results s rs s' :
  range_items GetRules a resourceGroupName items results s = (Returned rs, s') →
  ∃ results', rs = (results ++ results')%list ∧
              Forall2 (identity_of a resourceGroupName) items results'.
Proof.
  revert results s. induction items as [|g items IH]; intros results s; simpl.
  - intros [= <- <-]. exists []. split; [by rewrite app_nil_r | constructor].
  - unfold mbind at 1, GoM_bind at 1.
    destruct (EvaluateRules GetRules (as_target g) s) as [[rr|p] s1]; [|done].
    destruct g as [g'|]; [|done]. run.
    destruct (get_Name g') as [name|] eqn:Hname; [|done]. run.
    destruct (get_Type g') as [type|] eqn:Htype; [|done]. run.
    destruct (get_Location g') as [location|] eqn:Hlocation; [|done]. run.
    intros (results' & -> & Hall)%IH.
    eexists (_ :: results'). split; [by rewrite <- app_assoc|].
    constructor; [|done]. exists g'. by repeat split.
Qed.

(** The loop panics when an item is nil or lacks an identity field. *)
Lemma range_items_panics (a : Scanner Item) resourceGroupName items results s :
  Exists (λ g, ¬ identified g) items →
  ∃ p s', range_items GetRules a resourceGroupName items results s = (Panicked p, s').
Proof.
  intros Hbad. revert results s.
  induction Hbad as [g items Hg|g items _ IH]; intros results s; simpl;
    unfold mbind at 1, GoM_bind at 1;
    (destruct (EvaluateRules GetRules (as_target g) s) as [[rr|p] s1]; [|by eauto]);
    (destruct g as [g'|]; [|by eexists _, _]); run;
    (destruct (get_Name g') as [name|] eqn:Hname; [|by eexists _, _]); run;
    (destruct (get_Type g') as [type|] eqn:Htype; [|by eexists _, _]); run;
    (destruct (get_Location g') as [location|] eqn:Hlocation; [|by eexists _, _]); run.
  - destruct Hg. simpl. rewrite Hname, Htype, Hlocation. eauto.
  - apply IH.
Qed.

End listing.

Lemma Scan_empty_pages_witness :
  cog.Scan (sigr.GetRules (H:=strings.ascii_case)) more_examples.two_empty_pages "RG" None
    = (Returned ([], None), None).
Proof.
  apply (Scan_empty_pages (sigr.GetRules (H:=strings.ascii_case))
           more_examples.two_empty_pages "RG" None [[]; []]).
  - reflexivity.
  - by repeat constructor.
Defined.

Lemma Scan_page_boundaries_witness :
  Scan (sigr.GetRules (H:=strings.ascii_case)) example.five_hubs "RG" (Some example.context)
  = Scan (sigr.GetRules (H:=strings.ascii_case)) more_examples.five_hubs_one_page "RG"
      (Some example.context).
Proof.
  apply (Scan_page_boundaries (sigr.GetRules (H:=strings.ascii_case))
           example.five_hubs more_examples.five_hubs_one_page "RG" (Some example.context)
           [ [ Some (example.hub "sigr-a" (Some "Premium_P1"));
               Some (example.hub "sigr-b" (Some "Standard_S1"));
               Some (example.hub "c" (Some "Free_F1")) ];
             [ Some (example.hub "sigr-d" (Some "Premium_P1"));
               Some (example.hub "e" (Some "Standard_S1")) ] ]
           [ [ Some (example.hub "sigr-a" (Some "Premium_P1"));
               Some (example.hub "sigr-b" (Some "Standard_S1"));
               Some (example.hub "c" (Some "Free_F1"));
               Some (example.hub "sigr-d" (Some "Premium_P1"));
               Some (example.hub "e" (Some "Standard_S1")) ] ]);
    reflexivity.
Defined.

(** X4.  For every scanner variant and catalog: when [Scan] returns with a nil
    error, the listing had succeeded and the Results are, in listing order, one
    per listed item, each with [ServiceName], [Type] and [Location] of its item,
    the subscription of the configuration and the resource group of the
    call. *)
Theorem Scan_results_follow_items {Item : Type} `{!Resource Item}
    (GetRules : gmap string scanners.AzureRule) (a : Scanner Item)
    (resourceGroupName : string) (s s' : ptr scanners.ScanContext)
    (results : list scanners.AzureServiceResult) :
  Scan GetRules a resourceGroupName s = (Returned (results, None), s') →
  ∃ items,
    list_items a resourceGroupName = (items, None) ∧
    Forall2 (identity_of a resourceGroupName) items results.
Proof.
  unfold Scan. destruct (list_items a resourceGroupName) as [items [err|]]; [done|].
  unfold mbind, GoM_bind.
  destruct (range_items _ _ _ _ _ _) as [[rs|p] s1] eqn:Hloop; [|done].
  intros [= <- <-]. exists items. split; [done|].
  by apply range_items_inv in Hloop as (results' & -> & Hall).
Qed.

Lemma Scan_results_follow_items_witness :
  ∃ items,
    list_items more_examples.five_hubs_one_page "RG" = (items, None) ∧
    Forall2 (identity_of more_examples.five_hubs_one_page "RG") items
      (match (Scan (sigr.GetRules (H:=strings.ascii_case))
                more_examples.five_hubs_one_page "RG" (Some example.context)).1 with
       | Returned (results, _) => results
       | Panicked _ => []
       end).
Proof.
  apply (Scan_results_follow_items (sigr.GetRules (H:=strings.ascii_case))
           more_examples.five_hubs_one_page "RG"
           (Some example.context) (Some example.context)).
  vm_compute. reflexivity.
Defined.

(** X5.  For every scanner variant and catalog: when the listing succeeds but
    one listed item is nil or lacks [Name], [Type] or [Location], [Scan] panics;
    it returns neither the Results of the other items nor an error. *)
Theorem Scan_panics_on_unidentified_item {Item : Type} `{!Resource Item}
    (GetRules : gmap string scanners.AzureRule) (a : Scanner Item)
    (resourceGroupName : string) (s : ptr scanners.ScanContext)
    (pages : list (list (ptr Item))) :
  client a resourceGroupName = page_ok <$> pages →
  Exists (λ g, ¬ identified g) (concat pages) →
  ∃ p s', Scan GetRules a resourceGroupName s = (Panicked p, s').
Proof.
  intros Hp Hbad. unfold Scan, list_items. rewrite Hp, next_pages_ok. simpl.
  destruct (range_items_panics GetRules a resourceGroupName (concat pages) [] s Hbad)
    as (p & s' & Hloop).
  exists p, s'. unfold mbind, GoM_bind. by rewrite Hloop.
Qed.

Lemma Scan_panics_on_unidentified_item_witness :
  ∃ p s', cog.Scan ∅ example.unnamed_account "RG" (Some example.context) = (Panicked p, s').
Proof.
  apply (Scan_panics_on_unidentified_item ∅ example.unnamed_account "RG"
           (Some example.context)
           [ [ Some {| armcognitiveservices.ID := Some "/subscriptions/s1/x";
                       armcognitiveservices.Name := None;
                       armcognitiveservices.Type_ := Some "Microsoft.CognitiveServices/accounts";
                       armcognitiveservices.Location := Some "westeurope";
                       armcognitiveservices.Tags := ∅ |} ] ]).
  - reflexivity.
  - apply Exists_cons_hd. simpl. intros ([name Hname] & _). discriminate Hname.
Defined.

(** * Further properties of the rules *)

(** ** The two string tests *)

Lemma append_String c (s t : string) :
  String.append (String c s) t = String c (String.append s t).
Proof. reflexivity. Qed.

Lemma append_empty (t : string) : String.append "" t = t.
Proof. reflexivity. Qed.

Lemma HasPrefix_iff (s prefix : string) :
  strings.HasPrefix s prefix = true ↔ ∃ rest, s = String.append prefix rest.
Proof.
  unfold strings.HasPrefix. revert s.
  induction prefix as [|c prefix IH]; intros [|c' s]; simpl.
  - split; [by exists "" | done].
  - split; [by exists (String c' s) | done].
  - split; [done | intros [rest Hrest]; by rewrite append_String in Hrest].
  - destruct (Ascii.ascii_dec c c') as [<-|Hne].
    + rewrite IH. split; intros [rest Hrest]; exists rest;
        rewrite append_String in *; congruence.
    + split; [done | intros [rest Hrest]; rewrite append_String in Hrest; congruence].
Qed.

Lemma Contains_iff (s substr : string) :
  strings.Contains s substr = true ↔
  ∃ before after, s = String.append before (String.append substr after).
Proof.
  induction s as [|c s IH].
  - change (strings.Contains "" substr) with (strings.HasPrefix "" substr || false).
    rewrite orb_false_r, HasPrefix_iff.
    split.
    + intros [rest Hrest]. by exists "", rest.
    + intros ([|c before] & after & Heq).
      * rewrite append_empty in Heq. by exists after.
      * by rewrite append_String in Heq.
  - change (strings.Contains (String c s) substr)
      with (strings.HasPrefix (String c s) substr || strings.Contains s substr).
    rewrite orb_true_iff, IH, HasPrefix_iff.
    split.
    + intros [[rest Hrest]|(before & after & ->)].
      * by exists "", rest.
      * by exists (String c before), after.
    + intros ([|c' before] & after & Heq).
      * left. rewrite append_empty in Heq. by exists after.
      * right. rewrite append_String in Heq. injection Heq as -> ->.
        by exists before, after.
Qed.

(** ** Rules on single fields *)

(** X6.  sigr-002 on a SignalR resource whose SKU has a name returns
    (triggered, ""), not triggered exactly when "Premium" occurs somewhere in
    the SKU name (with this very capitalisation). *)
Theorem sigr_002_premium (service : armsignalr.ResourceInfo)
    (sku : armsignalr.ResourceSKU) (name : string) (s : ptr scanners.ScanContext) :
  armsignalr.SKU service = Some sku →
  armsignalr.ResourceSKU_Name sku = Some name →
  ∃ triggered : bool,
    sigr.Eval_sigr_002 (signalr_ResourceInfo (Some service)) s
      = (Returned (triggered, ""), s) ∧
    (triggered = false ↔
       ∃ before after, name = String.append before (String.append "Premium" after)).
Proof.
  intros Hsku Hname.
  exists (negb (strings.Contains name "Premium")). split.
  - unfold sigr.Eval_sigr_002. run. rewrite Hsku. run. rewrite Hname. run.
    by destruct (strings.Contains name "Premium").
  - by rewrite negb_false_iff, Contains_iff.
Qed.

Lemma sigr_002_premium_witness :
  ∃ triggered : bool,
    sigr.Eval_sigr_002
        (signalr_ResourceInfo (Some (example.hub "sigr-a" (Some "Premium_P1")))) None
      = (Returned (triggered, ""), None) ∧
    (triggered = false ↔
       ∃ before after,
         "Premium_P1" = String.append before (String.append "Premium" after)).
Proof.
  apply (sigr_002_premium (example.hub "sigr-a" (Some "Premium_P1"))
           {| armsignalr.ResourceSKU_Name := Some "Premium_P1" |} "Premium_P1" None);
    reflexivity.
Defined.

(** X7.  The naming rules sigr-006 and cosmos-006 on a resource with a name
    return (triggered, ""), not triggered exactly when the name starts with
    "sigr" resp. "cosmos"; the comparison is byte for byte, so an upper-case
    prefix is triggered. *)
Theorem naming_rules (service : armsignalr.ResourceInfo)
    (account : armcosmos.DatabaseAccountGetResults) (name name' : string)
    (s : ptr scanners.ScanContext) :
  armsignalr.Name service = Some name →
  armcosmos.Name account = Some name' →
  ∃ triggered triggered' : bool,
    sigr.Eval_sigr_006 (signalr_ResourceInfo (Some service)) s
      = (Returned (triggered, ""), s) ∧
    cosmos.Eval_cosmos_006 (cosmos_DatabaseAccountGetResults (Some account)) s
      = (Returned (triggered', ""), s) ∧
    (triggered = false ↔ ∃ rest, name = String.append "sigr" rest) ∧
    (triggered' = false ↔ ∃ rest, name' = String.append "cosmos" rest).
Proof.
  intros Hn Hn'.
  exists (negb (strings.HasPrefix name "sigr")), (negb (strings.HasPrefix name' "cosmos")).
  split; [|split].
  - unfold sigr.Eval_sigr_006. run. rewrite Hn. by run.
  - unfold cosmos.Eval_cosmos_006. run. rewrite Hn'. by run.
  - by rewrite !negb_false_iff, !HasPrefix_iff.
Qed.

Lemma naming_rules_witness :
  ∃ triggered triggered' : bool,
    sigr.Eval_sigr_006 (signalr_ResourceInfo (Some (example.hub "SIGR-hub" None))) None
      = (Returned (triggered, ""), None) ∧
    cosmos.Eval_cosmos_006
        (cosmos_DatabaseAccountGetResults (Some (example.account None))) None
      = (Returned (triggered', ""), None) ∧
    (triggered = false ↔ ∃ rest, "SIGR-hub" = String.append "sigr" rest) ∧
    (triggered' = false ↔ ∃ rest, "cosmos-db" = String.append "cosmos" rest).
Proof.
  apply (naming_rules (example.hub "SIGR-hub" None) (example.account None)
           "SIGR-hub" "cosmos-db" None); reflexivity.
Defined.

(** The upper-case name is triggered, the lower-case one is not. *)
Example naming_is_case_sensitive :
  (sigr.Eval_sigr_006 (signalr_ResourceInfo (Some (example.hub "SIGR-hub" None))) None).1
    = Returned (true, "") ∧
  (sigr.Eval_sigr_006 (signalr_ResourceInfo (Some (example.hub "sigr-hub" None))) None).1
    = Returned (false, "").
Proof. split; reflexivity. Qed.

(** X8.  The private-endpoint rules sigr-004 and cosmos-004 on a resource with
    [Properties] return (triggered, ""), triggered exactly when the slice of
    private endpoint connections is empty; entries are counted, nil entries
    included. *)
Theorem private_endpoint_rules (service : armsignalr.ResourceInfo)
    (account : armcosmos.DatabaseAccountGetResults)
    (properties : armsignalr.Properties)
    (properties' : armcosmos.DatabaseAccountGetProperties)
    (s : ptr scanners.ScanContext) :
  armsignalr.Properties_ service = Some properties →
  armcosmos.Properties account = Some properties' →
  ∃ triggered triggered' : bool,
    sigr.Eval_sigr_004 (signalr_ResourceInfo (Some service)) s
      = (Returned (triggered, ""), s) ∧
    cosmos.Eval_cosmos_004 (cosmos_DatabaseAccountGetResults (Some account)) s
      = (Returned (triggered', ""), s) ∧
    (triggered = true ↔ armsignalr.PrivateEndpointConnections properties = []) ∧
    (triggered' = true ↔ armcosmos.PrivateEndpointConnections properties' = []).
Proof.
  intros Hp Hp'.
  exists (negb (bool_decide (0 < length (armsignalr.PrivateEndpointConnections properties)))),
         (negb (bool_decide (0 < length (armcosmos.PrivateEndpointConnections properties')))).
  split; [|split; [|split]].
  - unfold sigr.Eval_sigr_004. run. rewrite Hp. by run.
  - unfold cosmos.Eval_cosmos_004. run. rewrite Hp'. by run.
  - rewrite negb_true_iff, bool_decide_eq_false.
    destruct (armsignalr.PrivateEndpointConnections properties); simpl; split;
      intros; try done; lia.
  - rewrite negb_true_iff, bool_decide_eq_false.
    destruct (armcosmos.PrivateEndpointConnections properties'); simpl; split;
      intros; try done; lia.
Qed.

Lemma private_endpoint_rules_witness :
  ∃ triggered triggered' : bool,
    sigr.Eval_sigr_004 (signalr_ResourceInfo (Some (example.hub "sigr-a" None))) None
      = (Returned (triggered, ""), None) ∧
    cosmos.Eval_cosmos_004
        (cosmos_DatabaseAccountGetResults
           (Some (example.account (Some (example.properties [] None))))) None
      = (Returned (triggered', ""), None) ∧
    (triggered = true ↔
       armsignalr.PrivateEndpointConnections
         {| armsignalr.PrivateEndpointConnections := [] |} = []) ∧
    (triggered' = true ↔
       armcosmos.PrivateEndpointConnections (example.properties [] None) = []).
Proof.
  apply (private_endpoint_rules (example.hub "sigr-a" None)
           (example.account (Some (example.properties [] None)))
           {| armsignalr.PrivateEndpointConnections := [] |}
           (example.properties [] None) None); reflexivity.
Defined.

(** X9.  cosmos-008 and cosmos-009 on an account with [Properties] always
    return: (triggered, "") with triggered false exactly when the flag
    ([DisableLocalAuth] resp. [DisableKeyBasedMetadataWriteAccess]) is set and
    true; an absent flag counts as not disabled. *)
Theorem disable_flag_rules (account : armcosmos.DatabaseAccountGetResults)
    (properties : armcosmos.DatabaseAccountGetProperties)
    (s : ptr scanners.ScanContext) :
  armcosmos.Properties account = Some properties →
  ∃ triggered8 triggered9 : bool,
    cosmos.Eval_cosmos_008 (cosmos_DatabaseAccountGetResults (Some account)) s
      = (Returned (triggered8, ""), s) ∧
    cosmos.Eval_cosmos_009 (cosmos_DatabaseAccountGetResults (Some account)) s
      = (Returned (triggered9, ""), s) ∧
    (triggered8 = false ↔ armcosmos.DisableLocalAuth properties = Some true) ∧
    (triggered9 = false ↔
       armcosmos.DisableKeyBasedMetadataWriteAccess properties = Some true).
Proof.
  intros Hp.
  exists (negb (cosmos.set_and_true (armcosmos.DisableLocalAuth properties))),
         (negb (cosmos.set_and_true (armcosmos.DisableKeyBasedMetadataWriteAccess properties))).
  split; [|split; [|split]].
  - unfold cosmos.Eval_cosmos_008. run. rewrite Hp. by run.
  - unfold cosmos.Eval_cosmos_009. run. rewrite Hp. by run.
  - by destruct (armcosmos.DisableLocalAuth properties) as [[]|].
  - by destruct (armcosmos.DisableKeyBasedMetadataWriteAccess properties) as [[]|].
Qed.

Lemma disable_flag_rules_witness :
  ∃ triggered8 triggered9 : bool,
    let properties := example.properties [] (Some true) in
    cosmos.Eval_cosmos_008
        (cosmos_DatabaseAccountGetResults (Some (example.account (Some properties)))) None
      = (Returned (triggered8, ""), None) ∧
    cosmos.Eval_cosmos_009
        (cosmos_DatabaseAccountGetResults (Some (example.account (Some properties)))) None
      = (Returned (triggered9, ""), None) ∧
    (triggered8 = false ↔ armcosmos.DisableLocalAuth properties = Some true) ∧
    (triggered9 = false ↔
       armcosmos.DisableKeyBasedMetadataWriteAccess properties = Some true).
Proof.
  apply (disable_flag_rules (example.account (Some (example.properties [] (Some true))))
           (example.properties [] (Some true)) None).
  reflexivity.
Defined.

(** ** The location loops of cosmos-002 and cosmos-003 *)

Lemma zones_of_locations (locations : list (ptr armcosmos.Location)) :
  Forall (λ location, is_Some (zone_redundancy location)) locations ↔
  ∃ zones, zone_redundancy <$> locations = Some <$> zones.
Proof.
  split.
  - induction 1 as [|location locations [z Hz] _ [zones IH]].
    + by exists [].
    + exists (z :: zones). by rewrite !fmap_cons, Hz, IH.
  - intros [zones Hz]. revert zones Hz.
    induction locations as [|location locations IH]; intros [|z zones] Hz;
      try discriminate Hz; constructor.
    + injection Hz as Hl _. by rewrite Hl.
    + injection Hz as _ Hz. by eapply IH.
Qed.

(** Both loops panic as soon as an entry is nil or has no [IsZoneRedundant]. *)
Lemma range_Locations_panic (locations : list (ptr armcosmos.Location)) :
  ¬ Forall (λ location, is_Some (zone_redundancy location)) locations →
  ∀ sla az ne n s,
    cosmos.range_Locations_002 locations az ne n s = (Panicked NilDereference, s) ∧
    cosmos.range_Locations_003 locations sla az ne n s = (Panicked NilDereference, s).
Proof.
  induction locations as [|location locations IH]; intros Hbad sla az ne n s.
  - destruct Hbad. constructor.
  - destruct location as [[[z|]]|]; simpl; run; try done.
    assert (Hbad' : ¬ Forall (λ location, is_Some (zone_redundancy location)) locations).
    { intros Hall. apply Hbad. constructor; [by eexists | done]. }
    destruct z; (split; [apply (IH Hbad' sla) | apply (IH Hbad')]).
Qed.

(** ** Properties of whole catalogs *)

(** Case analysis on the target of a SignalR (resp. CosmosDB) evaluator, down
    to the optional fields the evaluators dereference. *)
Ltac signalr_target target :=
  destruct target
    as [|[[[id|] [name|] type location [[[skuname|]]|] [props|] tags]|]| | | | | |].

Ltac cosmos_target target :=
  destruct target
    as [| |[[[id|] [name|] type location [[locations pecs [offer|] dla dkb]|] tags]|]| | | | |].

Section catalog_wide.
Context `{strings.CaseMapping}.
Import scanners.

Lemma Eval_cosmos_002_zones account properties zones s :
  armcosmos.Properties account = Some properties →
  zone_redundancy <$> armcosmos.Locations properties = Some <$> zones →
  ∃ triggered,
    cosmos.Eval_cosmos_002 (cosmos_DatabaseAccountGetResults (Some account)) s
      = (Returned (triggered, ""), s).
Proof.
  intros Hp Hz. unfold cosmos.Eval_cosmos_002. run. rewrite Hp. run.
  rewrite (range_Locations_002_eq _ zones) by done. simpl. eauto.
Qed.

Lemma Eval_cosmos_003_zones account properties zones s :
  armcosmos.Properties account = Some properties →
  zone_redundancy <$> armcosmos.Locations properties = Some <$> zones →
  ∃ sla,
    cosmos.Eval_cosmos_003 (cosmos_DatabaseAccountGetResults (Some account)) s
      = (Returned (false, sla), s).
Proof.
  intros Hp Hz. unfold cosmos.Eval_cosmos_003. run. rewrite Hp. run.
  rewrite (range_Locations_003_eq _ zones) by done. simpl. eauto.
Qed.

Lemma Eval_cosmos_00x_panic account properties s :
  armcosmos.Properties account = Some properties →
  ¬ Forall (λ location, is_Some (zone_redundancy location))
           (armcosmos.Locations properties) →
  cosmos.Eval_cosmos_002 (cosmos_DatabaseAccountGetResults (Some account)) s
    = (Panicked NilDereference, s) ∧
  cosmos.Eval_cosmos_003 (cosmos_DatabaseAccountGetResults (Some account)) s
    = (Panicked NilDereference, s).
Proof.
  intros Hp Hbad. unfold cosmos.Eval_cosmos_002, cosmos.Eval_cosmos_003. run.
  rewrite Hp. run.
  destruct (range_Locations_panic _ Hbad "99.99%" false false 0 s) as [-> ->].
  done.
Qed.

(** X14.  cosmos-002 and cosmos-003 return on the same inputs: on every target
    and context, either both return or both panic. *)
Theorem zone_rules_return_together (target : any) (s : ptr ScanContext) :
  returned (cosmos.Eval_cosmos_002 target s).1
  = returned (cosmos.Eval_cosmos_003 target s).1.
Proof.
  destruct target as [| |[account|]| | | | |]; try reflexivity.
  destruct (armcosmos.Properties account) as [properties|] eqn:Hp.
  - destruct (decide (Forall (λ location, is_Some (zone_redundancy location))
                             (armcosmos.Locations properties))) as [Hall|Hbad].
    + apply zones_of_locations in Hall as [zones Hz].
      destruct (Eval_cosmos_002_zones account properties zones s Hp Hz) as [t ->].
      destruct (Eval_cosmos_003_zones account properties zones s Hp Hz) as [sla ->].
      done.
    + by destruct (Eval_cosmos_00x_panic account properties s Hp Hbad) as [-> ->].
  - unfold cosmos.Eval_cosmos_002, cosmos.Eval_cosmos_003. run. by rewrite Hp.
Qed.

(** X10.  The informational rules (sigr-003, sigr-005, cosmos-003, cosmos-005)
    never trigger: whenever one of them returns, on any target and context, its
    first component is false. *)
Theorem informational_rules_never_trigger (rule : AzureRule) (expects : any → bool)
    (target : any) (s s' : ptr ScanContext) (triggered : bool) (detail : string) :
  catalog_rule rule expects →
  informational rule →
  Eval rule target s = (Returned (triggered, detail), s') →
  triggered = false.
Proof.
  intros [k r Hk|k r Hk] Hinfo; catalog_entry Hk;
    try (by repeat (apply elem_of_cons in Hinfo as [Hinfo|Hinfo]; [done|]);
            apply elem_of_nil in Hinfo).
  - by intros [= <- _ _].
  - signalr_target target; by intros [= <- _ _].
  - destruct target as [| |[account|]| | | | |]; try done.
    destruct (armcosmos.Properties account) as [properties|] eqn:Hp.
    + destruct (decide (Forall (λ location, is_Some (zone_redundancy location))
                               (armcosmos.Locations properties))) as [Hall|Hbad].
      * apply zones_of_locations in Hall as [zones Hz].
        destruct (Eval_cosmos_003_zones account properties zones s Hp Hz) as [sla ->].
        by intros [= <- _ _].
      * by destruct (Eval_cosmos_00x_panic account properties s Hp Hbad) as [_ ->].
    + unfold cosmos.Eval_cosmos_003. run. by rewrite Hp.
  - cosmos_target target; by intros [= <- _ _].
Qed.

Lemma sigr_005_informational :
  ∀ rule, sigr.GetRules !! "sigr-005" = Some rule → informational rule.
Proof. intros rule Hk. catalog_entry Hk. unfold informational. simpl. set_solver. Qed.

(** X11.  Every other rule of the two catalogs is a check without detail:
    whenever it returns, on any target and context, its second component is the
    empty string. *)
Theorem checks_have_no_detail (rule : AzureRule) (expects : any → bool)
    (target : any) (s s' : ptr ScanContext) (triggered : bool) (detail : string) :
  catalog_rule rule expects →
  ¬ informational rule →
  Eval rule target s = (Returned (triggered, detail), s') →
  detail = "".
Proof.
  intros [k r Hk|k r Hk] Hcheck; catalog_entry Hk;
    try (by destruct Hcheck; unfold informational; simpl; set_solver).
  - signalr_target target; try done; simpl; destruct s; run; try done;
      by intros [= _ <- _].
  - signalr_target target; try done; by intros [= _ <- _].
  - signalr_target target; try done; by intros [= _ <- _].
  - signalr_target target; try done; by intros [= _ <- _].
  - signalr_target target; try done; by intros [= _ <- _].
  - cosmos_target target; try done; simpl; destruct s; run; try done;
      by intros [= _ <- _].
  - destruct target as [| |[account|]| | | | |]; try done.
    destruct (armcosmos.Properties account) as [properties|] eqn:Hp.
    + destruct (decide (Forall (λ location, is_Some (zone_redundancy location))
                               (armcosmos.Locations properties))) as [Hall|Hbad].
      * apply zones_of_locations in Hall as [zones Hz].
        destruct (Eval_cosmos_002_zones account properties zones s Hp Hz) as [t ->].
        by intros [= _ <- _].
      * by destruct (Eval_cosmos_00x_panic account properties s Hp Hbad) as [-> _].
    + unfold cosmos.Eval_cosmos_002. run. by rewrite Hp.
  - cosmos_target target; try done; by intros [= _ <- _].
  - cosmos_target target; try done; by intros [= _ <- _].
  - cosmos_target target; try done; by intros [= _ <- _].
  - cosmos_target target; try done; by intros [= _ <- _].
  - cosmos_target target; try done; by intros [= _ <- _].
Qed.

End catalog_wide.

Lemma informational_rules_never_trigger_witness :
  ∃ rule,
    sigr.GetRules (H:=strings.ascii_case) !! "sigr-005" = Some rule ∧
    (∀ triggered detail s',
       scanners.Eval rule
           (signalr_ResourceInfo (Some (example.hub "sigr-a" (Some "Premium_P1")))) None
         = (Returned (triggered, detail), s') →
       triggered = false).
Proof.
  eexists. split; [reflexivity|]. intros triggered detail s'.
  apply (informational_rules_never_trigger (H:=strings.ascii_case) _ is_signalr).
  - by apply (catalog_rule_sigr (H:=strings.ascii_case) "sigr-005").
  - by apply (sigr_005_informational (H:=strings.ascii_case)).
Defined.

Lemma sigr_002_check :
  ∀ rule, sigr.GetRules (H:=strings.ascii_case) !! "sigr-002" = Some rule →
          ¬ informational rule.
Proof.
  intros rule Hk. catalog_entry Hk. unfold informational. simpl.
  intros Hin. repeat (apply elem_of_cons in Hin as [Hin|Hin]; [done|]).
  by apply elem_of_nil in Hin.
Qed.

Lemma checks_have_no_detail_witness :
  ∃ rule,
    sigr.GetRules (H:=strings.ascii_case) !! "sigr-002" = Some rule ∧
    (∀ triggered detail s',
       scanners.Eval rule
           (signalr_ResourceInfo (Some (example.hub "sigr-a" (Some "Premium_P1")))) None
         = (Returned (triggered, detail), s') →
       detail = "").
Proof.
  eexists. split; [reflexivity|]. intros triggered detail s'.
  apply (checks_have_no_detail (H:=strings.ascii_case) _ is_signalr).
  - by apply (catalog_rule_sigr (H:=strings.ascii_case) "sigr-002").
  - by apply sigr_002_check.
Defined.

Section safe_domain.
Context `{strings.CaseMapping}.
Import scanners.

(** X12.  The SignalR catalog on a SignalR resource: every rule returns exactly
    when the context pointer is not nil and the resource carries [ID], [Name],
    [SKU] with its [Name], and [Properties]; if any of them is missing, some
    rule panics. *)
Theorem sigr_catalog_returns_iff (service : armsignalr.ResourceInfo)
    (s : ptr ScanContext) :
  catalog_returns sigr.GetRules (signalr_ResourceInfo (Some service)) s ↔
  is_Some s ∧ signalr_complete service.
Proof.
  destruct service as [id name type location sku props tags].
  unfold signalr_complete. simpl. split.
  - intros Hall.
    pose proof (Hall "sigr-001" _ eq_refl) as H1.
    pose proof (Hall "sigr-002" _ eq_refl) as H2.
    pose proof (Hall "sigr-004" _ eq_refl) as H4.
    pose proof (Hall "sigr-006" _ eq_refl) as H6.
    clear Hall. simpl in H1, H2, H4, H6.
    destruct s, id, name, sku as [[[]]|], props; try done; simpl; eauto 10.
  - intros ([ctx ->] & [id' ->] & [name' ->] & Hsku & [props' ->]).
    destruct sku as [[[skuname|]]|]; try by destruct Hsku.
    intros k rule Hk. by catalog_entry Hk.
Qed.

(** X13.  The CosmosDB catalog on a CosmosDB account: every rule returns
    exactly when the context pointer is not nil and the account carries [ID],
    [Name], [Properties] with its offer type, and in every location entry a
    location with [IsZoneRedundant]. *)
Theorem cosmos_catalog_returns_iff (account : armcosmos.DatabaseAccountGetResults)
    (s : ptr ScanContext) :
  catalog_returns cosmos.GetRules (cosmos_DatabaseAccountGetResults (Some account)) s ↔
  is_Some s ∧ cosmos_complete account.
Proof.
  unfold cosmos_complete. split.
  - intros Hall.
    pose proof (Hall "cosmos-001" _ eq_refl) as H1.
    pose proof (Hall "cosmos-002" _ eq_refl) as H2.
    pose proof (Hall "cosmos-005" _ eq_refl) as H5.
    pose proof (Hall "cosmos-006" _ eq_refl) as H6.
    clear Hall. simpl in H1, H2, H5, H6.
    destruct (armcosmos.Properties account) as [properties|] eqn:Hp.
    + assert (Hlocs : Forall (λ location, is_Some (zone_redundancy location))
                             (armcosmos.Locations properties)).
      { destruct (decide (Forall (λ location, is_Some (zone_redundancy location))
                                 (armcosmos.Locations properties))) as [|Hbad]; [done|].
        destruct (Eval_cosmos_00x_panic account properties s Hp Hbad) as [Hpanic _].
        by rewrite Hpanic in H2. }
      destruct account as [id name type location props tags]. simpl in *. subst props.
      destruct properties as [locations pecs offer dla dkb]. simpl in *.
      destruct s, id, name, offer; try done; eauto 10.
    + destruct account as [id name type location props tags]. simpl in *. by subst props.
  - intros ([ctx ->] & [id' Hid] & [name' Hname] & Hprops) k rule Hk.
    destruct (armcosmos.Properties account) as [properties|] eqn:Hp; [|done].
    destruct Hprops as [[offer Hoffer] Hlocs].
    apply zones_of_locations in Hlocs as [zones Hz].
    catalog_entry Hk.
    + by rewrite (Eval_cosmos_001_eq account id' ctx Hid).
    + by destruct (Eval_cosmos_002_zones account properties zones (Some ctx) Hp Hz) as [t ->].
    + by destruct (Eval_cosmos_003_zones account properties zones (Some ctx) Hp Hz) as [t ->].
    + unfold cosmos.Eval_cosmos_004. run. rewrite Hp. by run.
    + unfold cosmos.Eval_cosmos_005. run. rewrite Hp. run. by rewrite Hoffer.
    + unfold cosmos.Eval_cosmos_006. run. by rewrite Hname.
    + done.
    + unfold cosmos.Eval_cosmos_008. run. rewrite Hp. by run.
    + unfold cosmos.Eval_cosmos_009. run. rewrite Hp. by run.
Qed.

(** X15.  A nil pointer of the right type passes the type assertion and is
    then dereferenced: every rule of the SignalR catalog that inspects its
    target, and every rule of the CosmosDB catalog, panics on it with a nil
    dereference and leaves the context as it is. *)
Theorem typed_nil_panics (s : ptr ScanContext) :
  (∀ k rule, sigr.GetRules !! k = Some rule → inspects_target rule →
     Eval rule (signalr_ResourceInfo None) s = (Panicked NilDereference, s)) ∧
  (∀ k rule, cosmos.GetRules !! k = Some rule →
     Eval rule (cosmos_DatabaseAccountGetResults None) s = (Panicked NilDereference, s)).
Proof.
  split; intros k rule Hk; [intros Hinspects|]; catalog_entry Hk; try done.
  destruct Hinspects as (t1 & t2 & s' & Hne). by destruct Hne.
Qed.

(** X16.  Only the diagnostics rules look at the scan context: every other rule
    of the two catalogs gives the same result (outcome or panic) on a target
    whatever the context is, a nil context pointer included. *)
Theorem other_rules_ignore_context (rule : AzureRule) (expects : any → bool)
    (target : any) (s1 s2 : ptr ScanContext) :
  catalog_rule rule expects →
  ¬ reads_diagnostics rule →
  (Eval rule target s1).1 = (Eval rule target s2).1.
Proof.
  intros [k r Hk|k r Hk] Hother; catalog_entry Hk;
    try (by destruct Hother; unfold reads_diagnostics; simpl; set_solver);
    try (by signalr_target target);
    try (by cosmos_target target).
  - destruct target as [| |[account|]| | | | |]; try done.
    destruct (armcosmos.Properties account) as [properties|] eqn:Hp.
    + destruct (decide (Forall (λ location, is_Some (zone_redundancy location))
                               (armcosmos.Locations properties))) as [Hall|Hbad].
      * apply zones_of_locations in Hall as [zones Hz].
        unfold cosmos.Eval_cosmos_002. run. rewrite Hp. run.
        by rewrite !(range_Locations_002_eq _ zones).
      * by destruct (Eval_cosmos_00x_panic account properties s1 Hp Hbad) as [-> _],
                    (Eval_cosmos_00x_panic account properties s2 Hp Hbad) as [-> _].
    + unfold cosmos.Eval_cosmos_002. run. by rewrite Hp.
  - destruct target as [| |[account|]| | | | |]; try done.
    destruct (armcosmos.Properties account) as [properties|] eqn:Hp.
    + destruct (decide (Forall (λ location, is_Some (zone_redundancy location))
                               (armcosmos.Locations properties))) as [Hall|Hbad].
      * apply zones_of_locations in Hall as [zones Hz].
        unfold cosmos.Eval_cosmos_003. run. rewrite Hp. run.
        by rewrite !(range_Locations_003_eq _ zones).
      * by destruct (Eval_cosmos_00x_panic account properties s1 Hp Hbad) as [_ ->],
                    (Eval_cosmos_00x_panic account properties s2 Hp Hbad) as [_ ->].
    + unfold cosmos.Eval_cosmos_003. run. by rewrite Hp.
Qed.

(** X17.  The diagnostics rules test the presence of the key, not the boolean
    stored under it: on two contexts whose indexes have the same keys, sigr-001
    and cosmos-001 give the same result on every target. *)
Theorem diagnostics_rule_reads_keys_only (target : any) (ctx1 ctx2 : ScanContext) :
  dom (DiagnosticsSettings ctx1) = dom (DiagnosticsSettings ctx2) →
  (sigr.Eval_sigr_001 target (Some ctx1)).1 = (sigr.Eval_sigr_001 target (Some ctx2)).1 ∧
  (cosmos.Eval_cosmos_001 target (Some ctx1)).1
    = (cosmos.Eval_cosmos_001 target (Some ctx2)).1.
Proof.
  intros Hdom.
  assert (Hkey : ∀ key,
            bool_decide (is_Some (DiagnosticsSettings ctx1 !! key))
            = bool_decide (is_Some (DiagnosticsSettings ctx2 !! key))).
  { intros key. apply bool_decide_ext. by rewrite <- !elem_of_dom, Hdom. }
  split.
  - destruct target as [|[service|]| | | | | |]; try done.
    destruct (armsignalr.ID service) as [id|] eqn:Hid.
    + by rewrite !(Eval_sigr_001_eq service id), Hkey.
    + unfold sigr.Eval_sigr_001. run. by rewrite Hid.
  - destruct target as [| |[account|]| | | | |]; try done.
    destruct (armcosmos.ID account) as [id|] eqn:Hid.
    + by rewrite !(Eval_cosmos_001_eq account id), Hkey.
    + unfold cosmos.Eval_cosmos_001. run. by rewrite Hid.
Qed.

End safe_domain.

Lemma sigr_004_other :
  ∀ rule, sigr.GetRules (H:=strings.ascii_case) !! "sigr-004" = Some rule →
          ¬ reads_diagnostics rule.
Proof.
  intros rule Hk. catalog_entry Hk. unfold reads_diagnostics. simpl.
  intros Hin. repeat (apply elem_of_cons in Hin as [Hin|Hin]; [done|]).
  by apply elem_of_nil in Hin.
Qed.

Lemma other_rules_ignore_context_witness :
  ∃ rule,
    sigr.GetRules (H:=strings.ascii_case) !! "sigr-004" = Some rule ∧
    (scanners.Eval rule (signalr_ResourceInfo (Some (example.hub "sigr-a" None))) None).1
    = (scanners.Eval rule (signalr_ResourceInfo (Some (example.hub "sigr-a" None)))
         (Some example.context)).1.
Proof.
  eexists. split; [reflexivity|].
  apply (other_rules_ignore_context (H:=strings.ascii_case) _ is_signalr).
  - by apply (catalog_rule_sigr (H:=strings.ascii_case) "sigr-004").
  - by apply sigr_004_other.
Defined.

Lemma diagnostics_rule_reads_keys_only_witness :
  let target := signalr_ResourceInfo (Some (example.hub "sigr-a" None)) in
  (sigr.Eval_sigr_001 (H:=strings.ascii_case) target (Some example.context)).1
    = (sigr.Eval_sigr_001 (H:=strings.ascii_case) target
         (Some more_examples.context_false)).1 ∧
  (cosmos.Eval_cosmos_001 (H:=strings.ascii_case) target (Some example.context)).1
    = (cosmos.Eval_cosmos_001 (H:=strings.ascii_case) target
         (Some more_examples.context_false)).1.
Proof.
  apply (diagnostics_rule_reads_keys_only (H:=strings.ascii_case)
           (signalr_ResourceInfo (Some (example.hub "sigr-a" None)))
           example.context more_examples.context_false).
  unfold example.context, more_examples.context_false. simpl.
  by rewrite !dom_singleton_L.
Defined.

(** A key stored with [false] still counts as diagnostics being configured. *)
Example diagnostics_false_entry :
  (sigr.Eval_sigr_001 (H:=strings.ascii_case)
     (signalr_ResourceInfo (Some (example.hub "sigr-a" None)))
     (Some more_examples.context_false)).1
  = Returned (false, "").
Proof. vm_compute. reflexivity. Qed.
